(** * CreatorDB proxy: request translation and error normalisation

    A shallow embedding of the three entry points of the repository:

    - the first Express shell ([server.ts], first variant; module [V1]),
    - the second Express shell ([server.ts], second variant, with [ApiError],
      [sanitizeId] and [handleError]; module [V2]),
    - the MCP tool shell ([index.ts]; module [Mcp]).

    The modules up to [Mcp] follow the source; [Terms] holds the vocabulary
    of the properties; the modules named [...Facts] hold the proofs.

    Strings are byte strings holding UTF-8 text.  A JSON number is kept as
    the text JavaScript prints for it.  A value of type [option Json] is a
    JavaScript value that is either [undefined] ([None]) or a decoded JSON
    value. *)

From Stdlib Require Import String Ascii List ZArith Bool Lia DecimalString.
Import ListNotations.
Open Scope string_scope.
Open Scope Z_scope.

Set Implicit Arguments.
Set Warnings "-register-all".

(* ================================================================== *)
(** ** JavaScript values *)
(* ================================================================== *)

Module Js.

(** Decoded JSON.  The fields of an object are its own properties in
    enumeration order, each key once.  A number is the text that
    [String(n)] and [JSON.stringify(n)] give for it (both zeros give the
    text of one digit), which is all the program observes of a number
    besides whether it is zero. *)
Inductive Json : Type :=
| JNull
| JBool (b : bool)
| JNumber (text : string)
| JStr (s : string)
| JArr (items : list Json)
| JObj (fields : list (string * Json)).

(** A JavaScript value: [undefined] or a JSON value. *)
Definition Value : Type := option Json.

Definition undefined : Value := None.

(** The decimal rendering of an integer, which is how JavaScript prints
    the integers it holds exactly, the status of a response among them. *)
Definition string_of_Z (n : Z) : string := NilZero.string_of_int (Z.to_int n).

(** The JSON number that is a safe integer. *)
Definition JNum (n : Z) : Json := JNumber (string_of_Z n).

Definition nonEmpty (s : string) : bool :=
  match s with
  | EmptyString => false
  | String _ _ => true
  end.

(** ToBoolean: [undefined], [null], [false], [0] and the empty string are
    falsy, every array and object is truthy. *)
Definition truthy (v : Value) : bool :=
  match v with
  | None => false
  | Some JNull => false
  | Some (JBool b) => b
  | Some (JNumber text) => negb (String.eqb text "0")
  | Some (JStr s) => nonEmpty s
  | Some (JArr _) => true
  | Some (JObj _) => true
  end.

(** Own-property lookup on the field list of an object. *)
Fixpoint lookup (k : string) (fields : list (string * Json)) : Value :=
  match fields with
  | [] => None
  | (k', v) :: rest => if String.eqb k k' then Some v else lookup k rest
  end.

(** ToString on JSON values, as [String(v)], template literals and
    [new Error(v)] apply it; [None] stands for the [TypeError] it throws.
    An array joins its elements with commas, [null] elements giving the
    empty string.  An object is rendered by the [toString] it inherits,
    which gives the fixed text below, unless it has a property of its own
    called [toString]: a decoded value is not callable, [valueOf] returns
    the object itself, and the conversion throws. *)
Fixpoint jsonToString (v : Json) : option string :=
  match v with
  | JNull => Some "null"
  | JBool true => Some "true"
  | JBool false => Some "false"
  | JNumber text => Some text
  | JStr s => Some s
  | JArr items =>
      (fix join (l : list Json) : option string :=
         match l with
         | [] => Some ""
         | x :: rest =>
             match (match x with JNull => Some "" | _ => jsonToString x end) with
             | None => None
             | Some first =>
                 match rest with
                 | [] => Some first
                 | _ :: _ =>
                     match join rest with
                     | None => None
                     | Some others => Some (first ++ "," ++ others)
                     end
                 end
             end
         end) items
  | JObj fields =>
      match lookup "toString" fields with
      | None => Some "[object Object]"
      | Some _ => None
      end
  end.

Definition toString (v : Value) : option string :=
  match v with
  | None => Some "undefined"
  | Some j => jsonToString j
  end.

(** The message of the [TypeError] thrown by a failing conversion. *)
Definition conversionError : string := "Cannot convert object to primitive value".

(** [a || b] *)
Definition orElse (a b : Value) : Value := if truthy a then a else b.

(** A destructuring default [{ x = d }]: the default is taken only for
    [undefined]. *)
Definition withDefault (a : Value) (d : Json) : Value :=
  match a with
  | None => Some d
  | Some _ => a
  end.

(** The JSON document of an object literal whose property values may be
    [undefined]: [JSON.stringify] leaves such properties out. *)
Fixpoint objectOf (props : list (string * Value)) : list (string * Json) :=
  match props with
  | [] => []
  | (k, Some v) :: rest => (k, v) :: objectOf rest
  | (_, None) :: rest => objectOf rest
  end.

(** *** JSON.stringify *)

Definition dquote : ascii := "034"%char.
Definition backslash : ascii := "092"%char.
Definition newline : ascii := "010"%char.

Definition hexLower (n : nat) : ascii :=
  nth n ["0"; "1"; "2"; "3"; "4"; "5"; "6"; "7"; "8"; "9";
         "a"; "b"; "c"; "d"; "e"; "f"]%char "0"%char.

Definition quoteChar (c : ascii) : string :=
  let n := nat_of_ascii c in
  if Ascii.eqb c dquote then String backslash (String dquote "")
  else if Ascii.eqb c backslash then String backslash (String backslash "")
  else if Nat.eqb n 8 then String backslash "b"
  else if Nat.eqb n 9 then String backslash "t"
  else if Nat.eqb n 10 then String backslash "n"
  else if Nat.eqb n 12 then String backslash "f"
  else if Nat.eqb n 13 then String backslash "r"
  else if Nat.ltb n 32 then
    String backslash
      (String "u" (String "0" (String "0"
        (String (hexLower (Nat.div n 16)) (String (hexLower (Nat.modulo n 16)) "")))))
  else String c "".

Fixpoint quoteBody (s : string) : string :=
  match s with
  | EmptyString => ""
  | String c rest => quoteChar c ++ quoteBody rest
  end.

Definition quoteJSON (s : string) : string :=
  String dquote (quoteBody s ++ String dquote "").

(** [serialize gap ind v]: the text of [v] at indentation [ind], with [gap]
    the indentation unit (empty for the compact form). *)
Fixpoint serialize (gap ind : string) (v : Json) {struct v} : string :=
  let inner := ind ++ gap in
  let opening := if nonEmpty gap then String newline inner else "" in
  let closing := if nonEmpty gap then String newline ind else "" in
  let colon := if nonEmpty gap then ": " else ":" in
  match v with
  | JNull => "null"
  | JBool true => "true"
  | JBool false => "false"
  | JNumber text => text
  | JStr s => quoteJSON s
  | JArr [] => "[]"
  | JArr items =>
      "[" ++ opening ++
      (fix each (l : list Json) : string :=
         match l with
         | [] => ""
         | x :: rest =>
             serialize gap inner x
             ++ (match rest with [] => "" | _ :: _ => "," ++ opening ++ each rest end)
         end) items
      ++ closing ++ "]"
  | JObj [] => "{}"
  | JObj fields =>
      "{" ++ opening ++
      (fix each (l : list (string * Json)) : string :=
         match l with
         | [] => ""
         | (k, x) :: rest =>
             quoteJSON k ++ colon ++ serialize gap inner x
             ++ (match rest with [] => "" | _ :: _ => "," ++ opening ++ each rest end)
         end) fields
      ++ closing ++ "}"
  end.

(** [JSON.stringify(v)] *)
Definition JSON_stringify (v : Json) : string := serialize "" "" v.

(** [JSON.stringify(v, null, 2)] *)
Definition JSON_stringify_pretty (v : Json) : string := serialize "  " "" v.

End Js.

(* ================================================================== *)
(** ** URL encoding *)
(* ================================================================== *)

Module Uri.

Definition between (lo hi : nat) (c : ascii) : bool :=
  let n := nat_of_ascii c in Nat.leb lo n && Nat.leb n hi.

Definition isAlnum (c : ascii) : bool :=
  between 48 57 c || between 65 90 c || between 97 122 c.

Definition oneOf (cs : list ascii) (c : ascii) : bool :=
  existsb (Ascii.eqb c) cs.

(** The characters [encodeURIComponent] leaves alone. *)
Definition uriUnreserved (c : ascii) : bool :=
  isAlnum c || oneOf ["-"; "_"; "."; "!"; "~"; "*"; "'"; "("; ")"]%char c.

Definition hexUpper (n : nat) : ascii :=
  nth n ["0"; "1"; "2"; "3"; "4"; "5"; "6"; "7"; "8"; "9";
         "A"; "B"; "C"; "D"; "E"; "F"]%char "0"%char.

Definition percent (c : ascii) : string :=
  let n := nat_of_ascii c in
  String "%" (String (hexUpper (Nat.div n 16)) (String (hexUpper (Nat.modulo n 16)) "")).

Fixpoint encodeURIComponent (s : string) : string :=
  match s with
  | EmptyString => ""
  | String c rest =>
      (if uriUnreserved c then String c "" else percent c) ++ encodeURIComponent rest
  end.

(** The application/x-www-form-urlencoded byte serializer used by
    [URLSearchParams.prototype.toString]. *)
Definition formByte (c : ascii) : string :=
  if isAlnum c || oneOf ["*"; "-"; "."; "_"]%char c then String c ""
  else if Ascii.eqb c " " then "+"
  else percent c.

Fixpoint formEncode (s : string) : string :=
  match s with
  | EmptyString => ""
  | String c rest => formByte c ++ formEncode rest
  end.

(** A [URLSearchParams] object is its list of name-value pairs. *)
Definition URLSearchParams : Type := list (string * string).

Definition append (params : URLSearchParams) (name value : string) : URLSearchParams :=
  (params ++ [(name, value)])%list.

Fixpoint paramsToString (params : URLSearchParams) : string :=
  match params with
  | [] => ""
  | (k, v) :: rest =>
      formEncode k ++ "=" ++ formEncode v
      ++ (match rest with [] => "" | _ :: _ => "&" ++ paramsToString rest end)
  end.

End Uri.

(* ================================================================== *)
(** ** Outbound calls, exceptions and the effect monad *)
(* ================================================================== *)

Module Net.
Import Js.

Inductive Method : Type := GET | POST.

(** One [fetch(url, options)] as it leaves the process. *)
Record OutCall : Type := {
  call_url : string;
  call_method : Method;
  call_headers : list (string * string);
  call_body : option string
}.

(** What [response.json()] yields: the decoded body, or a rejection with a
    syntax error when the body is not JSON. *)
Inductive Decoded : Type :=
| Parsed (data : Json)
| NotJson (syntaxError : string).

Inductive Reply : Type :=
| Responded (status : Z) (body : Decoded)
| NetworkFailure (message : string).

(** The upstream service, as the proxy sees it. *)
Definition Upstream : Type := OutCall -> Reply.

(** Thrown values.  Every exception of the program is an [Error]; the
    second shell adds the subclass [ApiError] carrying a status. *)
Inductive Exn : Type :=
| JsError (message : string)
| ApiError (message : string) (status : Z).

(** [error instanceof Error ? error.message : String(error)] *)
Definition errorText (e : Exn) : string :=
  match e with
  | JsError m => m
  | ApiError m _ => m
  end.

Inductive Result (A : Type) : Type :=
| Ok (a : A)
| Throw (e : Exn).
Arguments Throw {A} e.

(** A computation reads the upstream and appends to the log of outbound
    calls; it returns normally or throws. *)
Definition M (A : Type) : Type := Upstream -> list OutCall -> Result A * list OutCall.

Definition ret {A} (a : A) : M A := fun _ log => (Ok a, log).

Definition throw {A} (e : Exn) : M A := fun _ log => (Throw e, log).

Definition bind {A B} (m : M A) (k : A -> M B) : M B :=
  fun up log =>
    match m up log with
    | (Ok a, log') => k a up log'
    | (Throw e, log') => (Throw e, log')
    end.

Definition tryCatch {A} (m : M A) (h : Exn -> M A) : M A :=
  fun up log =>
    match m up log with
    | (Ok a, log') => (Ok a, log')
    | (Throw e, log') => h e up log'
    end.

Definition lift {A} (r : Result A) : M A := fun _ log => (r, log).

(** [String(v)] and the interpolation [`${v}`]: the text, or the
    [TypeError] of a value that has no text. *)
Definition stringOf (v : Value) : Result string :=
  match toString v with
  | Some text => Ok text
  | None => Throw (JsError conversionError)
  end.

(** Sequencing of two steps that may throw. *)
Definition andThen {A B} (r : Result A) (k : A -> Result B) : Result B :=
  match r with
  | Ok a => k a
  | Throw e => Throw e
  end.

(** [await fetch(url, options)]: the call is issued, then the upstream's
    answer decides between a response and a rejection. *)
Definition fetch (c : OutCall) : M (Z * Decoded) :=
  fun up log =>
    match up c with
    | Responded status body => (Ok (status, body), (log ++ [c])%list)
    | NetworkFailure m => (Throw (JsError m), (log ++ [c])%list)
    end.

(** [await response.json()] *)
Definition responseJson (d : Decoded) : M Json :=
  match d with
  | Parsed data => ret data
  | NotJson m => throw (JsError m)
  end.

(** Running a computation against an upstream with an empty call log. *)
Definition run {A} (m : M A) (up : Upstream) : Result A * list OutCall := m up [].

End Net.

Declare Scope eff_scope.
Delimit Scope eff_scope with eff.
Notation "x <- m ;; k" := (Net.bind m (fun x => k))
  (at level 61, m at next level, right associativity) : eff_scope.
Open Scope eff_scope.

(* ================================================================== *)
(** ** The API client shared by the first shell and the tool shell *)
(* ================================================================== *)

Module Client.
Import Js Net.

Definition API_BASE_URL : string := "https://apiv3.creatordb.app".

(** [response.ok] *)
Definition ok (status : Z) : bool := (200 <=? status) && (status <=? 299).

(** Property access [data.k] on a decoded body: it throws a [TypeError] on
    [null]; the three properties read by the client do not exist on
    numbers, strings, booleans and arrays. *)
Definition getProp (data : Json) (k : string) : Result Value :=
  match data with
  | JNull => Throw (JsError ("Cannot read properties of null (reading '" ++ k ++ "')"))
  | JObj fields => Ok (lookup k fields)
  | _ => Ok None
  end.

(** [v === false] *)
Definition isFalse (v : Value) : bool :=
  match v with
  | Some (JBool false) => true
  | _ => false
  end.

(** [!response.ok || data.success === false] *)
Definition responseFailed (status : Z) (data : Json) : Result bool :=
  if negb (ok status) then Ok true
  else match getProp data "success" with
       | Ok s => Ok (isFalse s)
       | Throw e => Throw e
       end.

(** [data.errorDescription || data.message || `API Error: ${response.status}`] *)
Definition failureMessage (status : Z) (data : Json) : Result Value :=
  match getProp data "errorDescription" with
  | Throw e => Throw e
  | Ok d =>
      if truthy d then Ok d
      else match getProp data "message" with
           | Throw e => Throw e
           | Ok m =>
               if truthy m then Ok m
               else Ok (Some (JStr ("API Error: " ++ string_of_Z status)))
           end
  end.

(** The classifier at the end of [makeApiRequest], with [mkError] the
    constructor applied to the message and the response status.  The
    constructor turns the chosen value into the message text, and throws
    the [TypeError] itself when the value has none. *)
Definition classify (mkError : string -> Z -> Exn) (status : Z) (data : Json) : Result Json :=
  match responseFailed status data with
  | Throw e => Throw e
  | Ok true =>
      match failureMessage status data with
      | Throw e => Throw e
      | Ok msg =>
          match stringOf msg with
          | Throw e => Throw e
          | Ok text => Throw (mkError text status)
          end
      end
  | Ok false => Ok data
  end.

Definition requestOptions (key endpoint : string) (method : Method) (body : option Json) : OutCall :=
  {| call_url := API_BASE_URL ++ endpoint;
     call_method := method;
     call_headers := [("Content-Type", "application/json"); ("api-key", key)];
     call_body :=
       match body, method with
       | Some b, POST => if truthy body then Some (JSON_stringify b) else None
       | _, _ => None
       end |}.

(** [makeApiRequest] of the first shell and of the tool shell:
    failures are thrown as plain [Error]s. *)
Definition makeApiRequest (key endpoint : string) (method : Method) (body : option Json) : M Json :=
  response <- fetch (requestOptions key endpoint method body) ;;
  data <- responseJson (snd response) ;;
  lift (classify (fun msg _ => JsError msg) (fst response) data).

(** The configuration check [if (!API_KEY)]: an unset or empty variable. *)
Definition keyMissing (env : option string) : bool :=
  match env with
  | None => true
  | Some k => negb (nonEmpty k)
  end.

End Client.

(** A process either exits at start-up or runs its server. *)
Inductive Process (S : Type) : Type :=
| Exited (code : Z)
| Running (server : S).
Arguments Exited {S} code.

(** The thirty-one operations, named as the tool table names them. *)
Inductive Operation : Type :=
| get_api_usage
| instagram_get_profile
| instagram_get_contact
| instagram_get_content_detail
| instagram_get_performance
| instagram_get_performance_history
| instagram_get_sponsorship
| instagram_get_audience
| instagram_search
| instagram_natural_language_search
| instagram_get_niches
| youtube_get_profile
| youtube_search
| youtube_get_performance
| youtube_get_performance_history
| youtube_get_content_detail
| youtube_get_sponsorship
| youtube_get_contact
| youtube_get_audience
| youtube_natural_language_search
| youtube_get_topics
| youtube_get_niches
| tiktok_get_profile
| tiktok_search
| tiktok_get_contact
| tiktok_get_performance
| tiktok_get_performance_history
| tiktok_get_content_detail
| tiktok_get_audience
| tiktok_natural_language_search
| tiktok_get_niches.

(* ================================================================== *)
(** ** The Express shells *)
(* ================================================================== *)

Module Http.
Import Js Net Uri.

(** An incoming request after Express has parsed it: [req.query] and the
    JSON object [req.body]. *)
Record Request : Type := {
  query : list (string * Json);
  body : list (string * Json)
}.

(** [res.status(s).json(payload)]; [res.json(payload)] has status 200. *)
Record Response : Type := {
  status : Z;
  payload : Json
}.

(** [{ success: false, error: msg }] *)
Definition failure (msg : string) : Json :=
  JObj [("success", JBool false); ("error", JStr msg)].

Definition badRequest (msg : string) : Response :=
  {| status := 400; payload := failure msg |}.

Definition json (result : Json) : Response :=
  {| status := 200; payload := result |}.

(** The body a search route forwards: the destructured fields of
    [req.body] with their defaults, [sortBy] kept when truthy and [desc]
    kept when defined. *)
Definition searchBody (b : list (string * Json)) : list (string * Value) :=
  let filters := lookup "filters" b in
  let pageSize := withDefault (lookup "pageSize" b) (JNum 20) in
  let offset := withDefault (lookup "offset" b) (JNum 0) in
  let sortBy := lookup "sortBy" b in
  let desc := withDefault (lookup "desc" b) (JBool true) in
  let searchBody := [("filters", filters); ("pageSize", pageSize); ("offset", offset)] in
  let searchBody := if truthy sortBy then (searchBody ++ [("sortBy", sortBy)])%list else searchBody in
  let searchBody :=
    match desc with
    | Some _ => (searchBody ++ [("desc", desc)])%list
    | None => searchBody
    end in
  searchBody.

(** The query string of the usage route; [String(...)] throws on a value
    that has no text, [start] being converted before [end] is looked at. *)
Definition usageQuery (q : list (string * Json)) : Result string :=
  let params : URLSearchParams := [] in
  andThen
    (if truthy (lookup "start" q)
     then andThen (stringOf (lookup "start" q)) (fun text => Ok (append params "start" text))
     else Ok params)
    (fun params =>
       andThen
         (if truthy (lookup "end" q)
          then andThen (stringOf (lookup "end" q)) (fun text => Ok (append params "end" text))
          else Ok params)
         (fun params => Ok (paramsToString params))).

Section Handlers.

(** The shell's [makeApiRequest] and the body of its [catch] clause. *)
Variable request : string -> Method -> option Json -> M Json.
Variable onError : Exn -> M Response.

Definition usage (req : Request) : M Response :=
  tryCatch
    (queryString <- lift (usageQuery (query req)) ;;
     result <- request ("/usage" ++ (if nonEmpty queryString then "?" ++ queryString else ""))
                       GET None ;;
     ret (json result))
    onError.

(** A route reading one query parameter; [text] is how the parameter is
    written into the upstream URL, which throws when the parameter has no
    text. *)
Definition getById (path param : string) (text : Value -> Result string) (req : Request)
  : M Response :=
  tryCatch
    (let id := lookup param (query req) in
     if negb (truthy id) then ret (badRequest (param ++ " is required"))
     else
       written <- lift (text id) ;;
       result <- request (path ++ "?" ++ param ++ "=" ++ written) GET None ;;
       ret (json result))
    onError.

Definition search (path : string) (req : Request) : M Response :=
  tryCatch
    (if negb (truthy (lookup "filters" (body req))) then ret (badRequest "filters is required")
     else
       result <- request path POST (Some (JObj (objectOf (searchBody (body req))))) ;;
       ret (json result))
    onError.

Definition naturalLanguageSearch (path : string) (req : Request) : M Response :=
  tryCatch
    (let query := lookup "query" (body req) in
     let pageSize := withDefault (lookup "pageSize" (body req)) (JNum 20) in
     let offset := withDefault (lookup "offset" (body req)) (JNum 0) in
     if negb (truthy query) then ret (badRequest "query is required")
     else
       result <- request path POST
                   (Some (JObj (objectOf [("query", query); ("pageSize", pageSize);
                                          ("offset", offset)]))) ;;
       ret (json result))
    onError.

Definition plain (path : string) (req : Request) : M Response :=
  tryCatch
    (result <- request path GET None ;;
     ret (json result))
    onError.

End Handlers.

End Http.

(** *** First variant: start-up key check, every failure answered 500,
    identifiers interpolated as given *)

Module V1.
Import Js Net Uri Client Http.

(** [catch (error) { res.status(500).json(...) }] *)
Definition onError (error : Exn) : M Response :=
  ret {| status := 500; payload := failure (errorText error) |}.

(** [`...${id}`] *)
Definition interpolated (v : Value) : Result string := stringOf v.

Definition handler (key : string) (op : Operation) : Request -> M Response :=
  let request := makeApiRequest key in
  let byId path param := getById request onError path param interpolated in
  match op with
  | get_api_usage => usage request onError
  | instagram_get_profile => byId "/instagram/profile" "uniqueId"
  | instagram_get_contact => byId "/instagram/contact" "uniqueId"
  | instagram_get_content_detail => byId "/instagram/content-detail" "contentId"
  | instagram_get_performance => byId "/instagram/performance" "uniqueId"
  | instagram_get_performance_history => byId "/instagram/performance-history" "uniqueId"
  | instagram_get_sponsorship => byId "/instagram/sponsorship" "uniqueId"
  | instagram_get_audience => byId "/instagram/audience" "uniqueId"
  | instagram_search => search request onError "/instagram/search"
  | instagram_natural_language_search => naturalLanguageSearch request onError "/instagram/nls"
  | instagram_get_niches => plain request onError "/instagram/niches"
  | youtube_get_profile => byId "/youtube/profile" "channelId"
  | youtube_search => search request onError "/youtube/search"
  | youtube_get_performance => byId "/youtube/performance" "channelId"
  | youtube_get_performance_history => byId "/youtube/performance-history" "channelId"
  | youtube_get_content_detail => byId "/youtube/content-detail" "contentId"
  | youtube_get_sponsorship => byId "/youtube/sponsorship" "channelId"
  | youtube_get_contact => byId "/youtube/contact" "channelId"
  | youtube_get_audience => byId "/youtube/audience" "channelId"
  | youtube_natural_language_search => naturalLanguageSearch request onError "/youtube/nls"
  | youtube_get_topics => plain request onError "/youtube/topics"
  | youtube_get_niches => plain request onError "/youtube/niches"
  | tiktok_get_profile => byId "/tiktok/profile" "uniqueId"
  | tiktok_search => search request onError "/tiktok/search"
  | tiktok_get_contact => byId "/tiktok/contact" "uniqueId"
  | tiktok_get_performance => byId "/tiktok/performance" "uniqueId"
  | tiktok_get_performance_history => byId "/tiktok/performance-history" "uniqueId"
  | tiktok_get_content_detail => byId "/tiktok/content-detail" "contentId"
  | tiktok_get_audience => byId "/tiktok/audience" "uniqueId"
  | tiktok_natural_language_search => naturalLanguageSearch request onError "/tiktok/nls"
  | tiktok_get_niches => plain request onError "/tiktok/niches"
  end.

(** Module initialisation: without the key the process exits with code 1
    before [app.listen]. *)
Definition start (env : option string) : Process (Operation -> Request -> M Response) :=
  match env with
  | Some key => if keyMissing env then Exited 1 else Running (handler key)
  | None => Exited 1
  end.

End V1.

(** *** Second variant: per-request key check, [ApiError] with the
    upstream status, encoded identifiers *)

Module V2.
Import Js Net Uri Client Http.

(** [id.replace(/^@/, "")] *)
Definition stripLeadingAt (id : string) : string :=
  match id with
  | String c rest => if Ascii.eqb c "@" then rest else id
  | EmptyString => id
  end.

Definition sanitizeId (id : string) : string :=
  encodeURIComponent (stripLeadingAt id).

Definition makeApiRequest (env : option string) (endpoint : string) (method : Method)
    (body : option Json) : M Json :=
  match env with
  | Some key =>
      if keyMissing env
      then throw (ApiError "CREATORDB_API_KEY environment variable is required" 500)
      else
        response <- fetch (requestOptions key endpoint method body) ;;
        data <- responseJson (snd response) ;;
        lift (classify ApiError (fst response) data)
  | None => throw (ApiError "CREATORDB_API_KEY environment variable is required" 500)
  end.

Definition handleError (error : Exn) : M Response :=
  match error with
  | ApiError message status => ret {| status := status; payload := failure message |}
  | JsError _ => ret {| status := 500; payload := failure (errorText error) |}
  end.

(** [sanitizeId(String(id))] and [encodeURIComponent(String(id))] *)
Definition sanitized (v : Value) : Result string :=
  andThen (stringOf v) (fun text => Ok (sanitizeId text)).
Definition encoded (v : Value) : Result string :=
  andThen (stringOf v) (fun text => Ok (encodeURIComponent text)).

Definition handler (env : option string) (op : Operation) : Request -> M Response :=
  let request := makeApiRequest env in
  let byId path param text := getById request handleError path param text in
  match op with
  | get_api_usage => usage request handleError
  | instagram_get_profile => byId "/instagram/profile" "uniqueId" sanitized
  | instagram_get_contact => byId "/instagram/contact" "uniqueId" sanitized
  | instagram_get_content_detail => byId "/instagram/content-detail" "contentId" encoded
  | instagram_get_performance => byId "/instagram/performance" "uniqueId" sanitized
  | instagram_get_performance_history => byId "/instagram/performance-history" "uniqueId" sanitized
  | instagram_get_sponsorship => byId "/instagram/sponsorship" "uniqueId" sanitized
  | instagram_get_audience => byId "/instagram/audience" "uniqueId" sanitized
  | instagram_search => search request handleError "/instagram/search"
  | instagram_natural_language_search => naturalLanguageSearch request handleError "/instagram/nls"
  | instagram_get_niches => plain request handleError "/instagram/niches"
  | youtube_get_profile => byId "/youtube/profile" "channelId" encoded
  | youtube_search => search request handleError "/youtube/search"
  | youtube_get_performance => byId "/youtube/performance" "channelId" encoded
  | youtube_get_performance_history => byId "/youtube/performance-history" "channelId" encoded
  | youtube_get_content_detail => byId "/youtube/content-detail" "contentId" encoded
  | youtube_get_sponsorship => byId "/youtube/sponsorship" "channelId" encoded
  | youtube_get_contact => byId "/youtube/contact" "channelId" encoded
  | youtube_get_audience => byId "/youtube/audience" "channelId" encoded
  | youtube_natural_language_search => naturalLanguageSearch request handleError "/youtube/nls"
  | youtube_get_topics => plain request handleError "/youtube/topics"
  | youtube_get_niches => plain request handleError "/youtube/niches"
  | tiktok_get_profile => byId "/tiktok/profile" "uniqueId" sanitized
  | tiktok_search => search request handleError "/tiktok/search"
  | tiktok_get_contact => byId "/tiktok/contact" "uniqueId" sanitized
  | tiktok_get_performance => byId "/tiktok/performance" "uniqueId" sanitized
  | tiktok_get_performance_history => byId "/tiktok/performance-history" "uniqueId" sanitized
  | tiktok_get_content_detail => byId "/tiktok/content-detail" "contentId" encoded
  | tiktok_get_audience => byId "/tiktok/audience" "uniqueId" sanitized
  | tiktok_natural_language_search => naturalLanguageSearch request handleError "/tiktok/nls"
  | tiktok_get_niches => plain request handleError "/tiktok/niches"
  end.

(** The module has no start-up check: the application is exported and
    serves whatever the environment holds. *)
Definition start (env : option string) : Process (Operation -> Request -> M Response) :=
  Running (handler env).

End V2.

(* ================================================================== *)
(** ** The MCP tool shell *)
(* ================================================================== *)

Module Mcp.
Import Js Net Uri Client.

(** The [name] of each entry of the tool table, which is also the label of
    its [case] in [handleToolCall]. *)
Definition toolName (op : Operation) : string :=
  match op with
  | get_api_usage => "get_api_usage"
  | instagram_get_profile => "instagram_get_profile"
  | instagram_get_contact => "instagram_get_contact"
  | instagram_get_content_detail => "instagram_get_content_detail"
  | instagram_get_performance => "instagram_get_performance"
  | instagram_get_performance_history => "instagram_get_performance_history"
  | instagram_get_sponsorship => "instagram_get_sponsorship"
  | instagram_get_audience => "instagram_get_audience"
  | instagram_search => "instagram_search"
  | instagram_natural_language_search => "instagram_natural_language_search"
  | instagram_get_niches => "instagram_get_niches"
  | youtube_get_profile => "youtube_get_profile"
  | youtube_search => "youtube_search"
  | youtube_get_performance => "youtube_get_performance"
  | youtube_get_performance_history => "youtube_get_performance_history"
  | youtube_get_content_detail => "youtube_get_content_detail"
  | youtube_get_sponsorship => "youtube_get_sponsorship"
  | youtube_get_contact => "youtube_get_contact"
  | youtube_get_audience => "youtube_get_audience"
  | youtube_natural_language_search => "youtube_natural_language_search"
  | youtube_get_topics => "youtube_get_topics"
  | youtube_get_niches => "youtube_get_niches"
  | tiktok_get_profile => "tiktok_get_profile"
  | tiktok_search => "tiktok_search"
  | tiktok_get_contact => "tiktok_get_contact"
  | tiktok_get_performance => "tiktok_get_performance"
  | tiktok_get_performance_history => "tiktok_get_performance_history"
  | tiktok_get_content_detail => "tiktok_get_content_detail"
  | tiktok_get_audience => "tiktok_get_audience"
  | tiktok_natural_language_search => "tiktok_natural_language_search"
  | tiktok_get_niches => "tiktok_get_niches"
  end.

(** [inputSchema.required] of each entry of the tool table. *)
Definition required (op : Operation) : list string :=
  match op with
  | get_api_usage | instagram_get_niches | youtube_get_topics | youtube_get_niches
  | tiktok_get_niches => []
  | instagram_get_content_detail | youtube_get_content_detail
  | tiktok_get_content_detail => ["contentId"]
  | instagram_search | youtube_search | tiktok_search => ["filters"; "pageSize"; "offset"]
  | instagram_natural_language_search | youtube_natural_language_search
  | tiktok_natural_language_search => ["query"]
  | youtube_get_profile | youtube_get_performance | youtube_get_performance_history
  | youtube_get_sponsorship | youtube_get_contact | youtube_get_audience => ["channelId"]
  | instagram_get_profile | instagram_get_contact | instagram_get_performance
  | instagram_get_performance_history | instagram_get_sponsorship | instagram_get_audience
  | tiktok_get_profile | tiktok_get_contact | tiktok_get_performance
  | tiktok_get_performance_history | tiktok_get_audience => ["uniqueId"]
  end.

(** The case labels of the [switch], in source order. *)
Definition cases : list Operation :=
  [ get_api_usage;
    instagram_get_profile; instagram_get_contact; instagram_get_content_detail;
    instagram_get_performance; instagram_get_performance_history;
    instagram_get_sponsorship; instagram_get_audience; instagram_search;
    instagram_natural_language_search; instagram_get_niches;
    youtube_get_profile; youtube_search; youtube_get_performance;
    youtube_get_performance_history; youtube_get_content_detail;
    youtube_get_sponsorship; youtube_get_contact; youtube_get_audience;
    youtube_natural_language_search; youtube_get_topics; youtube_get_niches;
    tiktok_get_profile; tiktok_search; tiktok_get_contact; tiktok_get_performance;
    tiktok_get_performance_history; tiktok_get_content_detail; tiktok_get_audience;
    tiktok_natural_language_search; tiktok_get_niches ].

(** [switch (name)]: the first case whose label equals [name], if any. *)
Definition caseOf (name : string) : option Operation :=
  find (fun op => String.eqb name (toolName op)) cases.

(** The query string of the usage tool; [String(...)] throws on a value
    that has no text, [start] being converted before [end] is looked at. *)
Definition usageQuery (args : list (string * Json)) : Result string :=
  let params : URLSearchParams := [] in
  andThen
    (if truthy (lookup "start" args)
     then andThen (stringOf (lookup "start" args)) (fun text => Ok (append params "start" text))
     else Ok params)
    (fun params =>
       andThen
         (if truthy (lookup "end" args)
          then andThen (stringOf (lookup "end" args)) (fun text => Ok (append params "end" text))
          else Ok params)
         (fun params => Ok (paramsToString params))).

(** The body of a search tool: [||] defaults for [pageSize] and [offset],
    [sortBy] kept when truthy, [desc] kept when defined. *)
Definition searchBody (args : list (string * Json)) : list (string * Value) :=
  let searchBody :=
    [("filters", lookup "filters" args);
     ("pageSize", orElse (lookup "pageSize" args) (Some (JNum 20)));
     ("offset", orElse (lookup "offset" args) (Some (JNum 0)))] in
  let searchBody :=
    if truthy (lookup "sortBy" args)
    then (searchBody ++ [("sortBy", lookup "sortBy" args)])%list else searchBody in
  let searchBody :=
    match lookup "desc" args with
    | Some _ => (searchBody ++ [("desc", lookup "desc" args)])%list
    | None => searchBody
    end in
  searchBody.

Definition nlsBody (args : list (string * Json)) : list (string * Value) :=
  [("query", lookup "query" args);
   ("pageSize", orElse (lookup "pageSize" args) (Some (JNum 20)));
   ("offset", orElse (lookup "offset" args) (Some (JNum 0)))].

(** The body of one [case]: the value assigned to [result]. *)
Definition toolCase (key : string) (op : Operation) (args : list (string * Json)) : M Json :=
  let request := makeApiRequest key in
  let byId path param :=
    written <- lift (stringOf (lookup param args)) ;;
    request (path ++ "?" ++ param ++ "=" ++ written) GET None in
  let search path := request path POST (Some (JObj (objectOf (searchBody args)))) in
  let nls path := request path POST (Some (JObj (objectOf (nlsBody args)))) in
  match op with
  | get_api_usage =>
      queryString <- lift (usageQuery args) ;;
      request ("/usage" ++ (if nonEmpty queryString then "?" ++ queryString else "")) GET None
  | instagram_get_profile => byId "/instagram/profile" "uniqueId"
  | instagram_get_contact => byId "/instagram/contact" "uniqueId"
  | instagram_get_content_detail => byId "/instagram/content-detail" "contentId"
  | instagram_get_performance => byId "/instagram/performance" "uniqueId"
  | instagram_get_performance_history => byId "/instagram/performance-history" "uniqueId"
  | instagram_get_sponsorship => byId "/instagram/sponsorship" "uniqueId"
  | instagram_get_audience => byId "/instagram/audience" "uniqueId"
  | instagram_search => search "/instagram/search"
  | instagram_natural_language_search => nls "/instagram/nls"
  | instagram_get_niches => request "/instagram/niches" GET None
  | youtube_get_profile => byId "/youtube/profile" "channelId"
  | youtube_search => search "/youtube/search"
  | youtube_get_performance => byId "/youtube/performance" "channelId"
  | youtube_get_performance_history => byId "/youtube/performance-history" "channelId"
  | youtube_get_content_detail => byId "/youtube/content-detail" "contentId"
  | youtube_get_sponsorship => byId "/youtube/sponsorship" "channelId"
  | youtube_get_contact => byId "/youtube/contact" "channelId"
  | youtube_get_audience => byId "/youtube/audience" "channelId"
  | youtube_natural_language_search => nls "/youtube/nls"
  | youtube_get_topics => request "/youtube/topics" GET None
  | youtube_get_niches => request "/youtube/niches" GET None
  | tiktok_get_profile => byId "/tiktok/profile" "uniqueId"
  | tiktok_search => search "/tiktok/search"
  | tiktok_get_contact => byId "/tiktok/contact" "uniqueId"
  | tiktok_get_performance => byId "/tiktok/performance" "uniqueId"
  | tiktok_get_performance_history => byId "/tiktok/performance-history" "uniqueId"
  | tiktok_get_content_detail => byId "/tiktok/content-detail" "contentId"
  | tiktok_get_audience => byId "/tiktok/audience" "uniqueId"
  | tiktok_natural_language_search => nls "/tiktok/nls"
  | tiktok_get_niches => request "/tiktok/niches" GET None
  end.

(** [{ success: false, error: msg }] *)
Definition failure (msg : string) : Json :=
  JObj [("success", JBool false); ("error", JStr msg)].

Definition handleToolCall (key name : string) (args : list (string * Json)) : M string :=
  tryCatch
    (result <- match caseOf name with
               | Some op => toolCase key op args
               | None => throw (JsError ("Unknown tool: " ++ name))
               end ;;
     ret (JSON_stringify_pretty result))
    (fun error => ret (JSON_stringify (failure (errorText error)))).

(** Module initialisation: without the key the process exits with code 1
    before the server is created. *)
Definition start (env : option string)
  : Process (string -> list (string * Json) -> M string) :=
  match env with
  | Some key => if keyMissing env then Exited 1 else Running (handleToolCall key)
  | None => Exited 1
  end.

End Mcp.

(** *** The tool table and the two request handlers of the server *)

Module McpServer.
Import Js Net Mcp.

(** One entry of the tool table: its [name], the names of the properties
    of its [inputSchema], and [inputSchema.required] (absent is empty).
    Descriptions and the schemas of the properties are left out. *)
Record Tool : Type := {
  name : string;
  properties : list string;
  requiredNames : list string
}.

Definition tool (n : string) (props req : list string) : Tool :=
  {| name := n; properties := props; requiredNames := req |}.

Definition tools : list Tool :=
  [
    tool "get_api_usage"
      ["start"; "end"] [];
    tool "instagram_get_profile"
      ["uniqueId"] ["uniqueId"];
    tool "instagram_get_contact"
      ["uniqueId"] ["uniqueId"];
    tool "instagram_get_content_detail"
      ["contentId"] ["contentId"];
    tool "instagram_get_performance"
      ["uniqueId"] ["uniqueId"];
    tool "instagram_get_performance_history"
      ["uniqueId"] ["uniqueId"];
    tool "instagram_get_sponsorship"
      ["uniqueId"] ["uniqueId"];
    tool "instagram_get_audience"
      ["uniqueId"] ["uniqueId"];
    tool "instagram_search"
      ["filters"; "pageSize"; "offset"; "sortBy"; "desc"] ["filters"; "pageSize"; "offset"];
    tool "instagram_natural_language_search"
      ["query"; "pageSize"; "offset"] ["query"];
    tool "instagram_get_niches"
      [] [];
    tool "youtube_get_profile"
      ["channelId"] ["channelId"];
    tool "youtube_search"
      ["filters"; "pageSize"; "offset"; "sortBy"; "desc"] ["filters"; "pageSize"; "offset"];
    tool "youtube_get_performance"
      ["channelId"] ["channelId"];
    tool "youtube_get_performance_history"
      ["channelId"] ["channelId"];
    tool "youtube_get_content_detail"
      ["contentId"] ["contentId"];
    tool "youtube_get_sponsorship"
      ["channelId"] ["channelId"];
    tool "youtube_get_contact"
      ["channelId"] ["channelId"];
    tool "youtube_get_audience"
      ["channelId"] ["channelId"];
    tool "youtube_natural_language_search"
      ["query"; "pageSize"; "offset"] ["query"];
    tool "youtube_get_topics"
      [] [];
    tool "youtube_get_niches"
      [] [];
    tool "tiktok_get_profile"
      ["uniqueId"] ["uniqueId"];
    tool "tiktok_search"
      ["filters"; "pageSize"; "offset"; "sortBy"; "desc"] ["filters"; "pageSize"; "offset"];
    tool "tiktok_get_contact"
      ["uniqueId"] ["uniqueId"];
    tool "tiktok_get_performance"
      ["uniqueId"] ["uniqueId"];
    tool "tiktok_get_performance_history"
      ["uniqueId"] ["uniqueId"];
    tool "tiktok_get_content_detail"
      ["contentId"] ["contentId"];
    tool "tiktok_get_audience"
      ["uniqueId"] ["uniqueId"];
    tool "tiktok_natural_language_search"
      ["query"; "pageSize"; "offset"] ["query"];
    tool "tiktok_get_niches"
      [] []
  ].

(** The handler of the list request: [return { tools }]. *)
Definition listTools : list Tool := tools.

(** One block of the [content] of a tool result. *)
Record Content : Type := {
  type : string;
  text : string
}.

(** [(args as Record<string, unknown>) || {}]: the properties of the
    argument value when it is a truthy object, no property otherwise. *)
Definition argumentRecord (args : Value) : list (string * Json) :=
  match orElse args (Some (JObj [])) with
  | Some (JObj fields) => fields
  | _ => []
  end.

(** The handler of the call request. *)
Definition callTool (key name : string) (args : Value) : M (list Content) :=
  result <- handleToolCall key name (argumentRecord args) ;;
  ret [{| type := "text"; text := result |}].

End McpServer.

(* ================================================================== *)
(** ** Vocabulary of the properties *)
(* ================================================================== *)

(** The words in which the properties of the shells are stated, and the
    concrete requests and upstream answers they are checked on. *)
Module Terms.
Import Js Net Uri Client Http.

(** *** Classifier *)

(** The first truthy candidate, or else the fallback. *)
Definition firstTruthy (candidates : list Value) (fallback : Value) : Value :=
  match find truthy candidates with
  | Some v => v
  | None => fallback
  end.

(** The three-tier choice of the message: [errorDescription], then
    [message], then the generic text carrying the status. *)
Definition chosenMessage (status : Z) (fields : list (string * Json)) : Value :=
  firstTruthy [lookup "errorDescription" fields; lookup "message" fields]
              (Some (JStr ("API Error: " ++ string_of_Z status))).

(** The error a failure is reported with: the chosen message as text, under
    the constructor of the shell, or the [TypeError] of a chosen value that
    has no text. *)
Definition reported (mkError : string -> Z -> Exn) (status : Z)
    (fields : list (string * Json)) : Exn :=
  match toString (chosenMessage status fields) with
  | Some text => mkError text status
  | None => JsError conversionError
  end.

(** The three-tier message as the caller reads it. *)
Definition threeTier (status : Z) (fields : list (string * Json)) : string :=
  errorText (reported (fun msg _ => JsError msg) status fields).

(** The fields of a decoded body: those of an object; a number, string,
    boolean or array has none of the fields the classifier reads. *)
Definition fieldsOf (data : Json) : list (string * Json) :=
  match data with
  | JObj fields => fields
  | _ => []
  end.

(** The failure condition of the classifier, as a proposition. *)
Definition upstreamFailure (status : Z) (fields : list (string * Json)) : Prop :=
  ~ (200 <= status <= 299) \/ lookup "success" fields = Some (JBool false).

(** *** Alphabets of encoded text *)

Fixpoint allChars (p : ascii -> bool) (s : string) : bool :=
  match s with
  | EmptyString => true
  | String c rest => p c && allChars p rest
  end.

(** What percent-encoding may leave in its output. *)
Definition encodedChar (c : ascii) : bool :=
  uriUnreserved c || Ascii.eqb c "%".

(** The alphabet of a form-encoded query string. *)
Definition formChar (c : ascii) : bool :=
  isAlnum c || oneOf ["*"; "-"; "."; "_"; "+"; "%"; "="; "&"]%char c.

(** The alphabet of an upstream URL built from fixed text and encoded
    parameters. *)
Definition urlChar (c : ascii) : bool :=
  encodedChar c || formChar c || oneOf ["/"; "?"; ":"]%char c.

(** How the second shell writes the text of the identifier parameter
    [p]. *)
Definition identifierText (p : string) (text : string) : string :=
  if String.eqb p "uniqueId" then V2.sanitizeId text
  else encodeURIComponent text.

(** The answer [{ success: false, error: msg }] sent under a status. *)
Definition errorAnswer (status : Z) (msg : string) : Response :=
  {| status := status;
     payload := JObj [("success", JBool false); ("error", JStr msg)] |}.

(** The answer of either Express shell to a parameter that has no text. *)
Definition conversionFailure : Response :=
  errorAnswer 500 "Cannot convert object to primitive value".

(** An answer given before any call: 400 naming a parameter, or 500 with
    the type error of a conversion to text. *)
Definition earlyAnswer (r : Response) : Prop :=
  (exists p, r = errorAnswer 400 (p ++ " is required")) \/ r = conversionFailure.

(** *** Routes as plans *)

(** A route answers at once, fails before any request, or issues one
    upstream request. *)
Inductive Step : Type :=
| Reject (r : Response)
| Fail (e : Exn)
| Call (endpoint : string) (method : Method) (body : option Json).

Section Plans.

Variable request : string -> Method -> option Json -> M Json.
Variable onError : Exn -> M Response.

Definition exec (s : Step) : M Response :=
  match s with
  | Reject r => ret r
  | Fail e => onError e
  | Call endpoint method body =>
      tryCatch (result <- request endpoint method body ;; ret (json result)) onError
  end.

Definition usagePlan (req : Request) : Step :=
  match usageQuery (query req) with
  | Ok queryString =>
      Call ("/usage" ++ (if nonEmpty queryString then "?" ++ queryString else "")) GET None
  | Throw e => Fail e
  end.

Definition getByIdPlan (path param : string) (text : Value -> Result string) (req : Request)
  : Step :=
  let id := lookup param (query req) in
  if truthy id then
    match text id with
    | Ok written => Call (path ++ "?" ++ param ++ "=" ++ written) GET None
    | Throw e => Fail e
    end
  else Reject (badRequest (param ++ " is required")).

Definition searchPlan (path : string) (req : Request) : Step :=
  if truthy (lookup "filters" (body req))
  then Call path POST (Some (JObj (objectOf (searchBody (body req)))))
  else Reject (badRequest "filters is required").

Definition nlsPlan (path : string) (req : Request) : Step :=
  if truthy (lookup "query" (body req))
  then Call path POST
         (Some (JObj (objectOf
            [("query", lookup "query" (body req));
             ("pageSize", withDefault (lookup "pageSize" (body req)) (JNum 20));
             ("offset", withDefault (lookup "offset" (body req)) (JNum 0))])))
  else Reject (badRequest "query is required").

Definition plainPlan (path : string) (req : Request) : Step := Call path GET None.

End Plans.

(** *** Search bodies and usage queries *)

(** The given value of a field, or the default when the field is absent. *)
Definition givenOr (v : Value) (d : Json) : Json :=
  match v with
  | Some x => x
  | None => d
  end.

(** The property list a search route of the Express shells forwards. *)
Definition forwarded (b : list (string * Json)) : list (string * Json) :=
  ((match lookup "filters" b with Some f => [("filters", f)] | None => [] end)
   ++ [("pageSize", givenOr (lookup "pageSize" b) (JNum 20));
       ("offset", givenOr (lookup "offset" b) (JNum 0))]
   ++ (match lookup "sortBy" b with
       | Some s => if truthy (Some s) then [("sortBy", s)] else []
       | None => []
       end)
   ++ [("desc", givenOr (lookup "desc" b) (JBool true))])%list.

Definition searches : list Operation :=
  [instagram_search; youtube_search; tiktok_search].

(** The pair appended for a key: present when the value is truthy, with
    the text of the value; [None] when a truthy value has no text. *)
Definition kept (k : string) (args : list (string * Json)) : option URLSearchParams :=
  if truthy (lookup k args)
  then match toString (lookup k args) with
       | Some text => Some [(k, text)]
       | None => None
       end
  else Some [].

(** The query string of a usage call: [start], then [end]. *)
Definition usageText (args : list (string * Json)) : option string :=
  match kept "start" args, kept "end" args with
  | Some s, Some e => Some (paramsToString (s ++ e)%list)
  | _, _ => None
  end.

(** The endpoint of a usage call with the query string [queryString]. *)
Definition usageEndpoint (queryString : string) : string :=
  "/usage" ++ (if nonEmpty queryString then "?" ++ queryString else "").

(** *** Requests and upstream answers used as examples *)

Definition keyError : string := "CREATORDB_API_KEY environment variable is required".

(** An upstream that answers every call with the same status and body. *)
Definition always (status : Z) (fields : list (string * Json)) : Upstream :=
  fun _ => Responded status (Parsed (JObj fields)).

Definition quotaExceeded : Upstream :=
  always 429 [("success", JBool false); ("errorDescription", JStr "quota exceeded")].

Definition noArguments : Request := {| query := []; body := [] |}.

Definition profileRequest : Request :=
  {| query := [("uniqueId", JStr "nasa")]; body := [] |}.

Definition handleRequest : Request :=
  {| query := [("channelId", JStr "@MrBeast")]; body := [] |}.

Definition emptySortBy : list (string * Json) :=
  [("filters", JArr []); ("sortBy", JStr "")].

Definition countryFilter : Json :=
  JObj [("filterName", JStr "country"); ("op", JStr "="); ("value", JStr "USA")].

Definition elevenFilters : list Json := repeat countryFilter 11.

Definition elevenRequest : Request :=
  {| query := []; body := [("filters", JArr elevenFilters)] |}.

Definition zeroStart : list (string * Json) := [("start", JNum 0)].

(** A value decoded from [{"toString": "x"}]: an object that has no text. *)
Definition noText : Json := JObj [("toString", JStr "x")].

End Terms.

(* ================================================================== *)
(** ** Vocabulary of the further properties *)
(* ================================================================== *)

Module MoreTerms.
Import Js Net Uri Client Http Terms.

(** *** What a shell makes of the upstream's reply to its one call *)

(** The result of the client once the reply is known. *)
Definition clientResult (mkError : string -> Z -> Exn) (reply : Reply) : Result Json :=
  match reply with
  | Responded status (Parsed data) => classify mkError status data
  | Responded _ (NotJson m) => Throw (JsError m)
  | NetworkFailure m => Throw (JsError m)
  end.

(** The answer of a route of the first shell. *)
Definition firstAnswer (reply : Reply) : Response :=
  match clientResult (fun msg _ => JsError msg) reply with
  | Ok data => json data
  | Throw e => {| status := 500; payload := failure (errorText e) |}
  end.

(** The answer of a route of the second shell. *)
Definition secondAnswer (reply : Reply) : Response :=
  match clientResult ApiError reply with
  | Ok data => json data
  | Throw (ApiError m s) => {| status := s; payload := failure m |}
  | Throw (JsError m) => {| status := 500; payload := failure m |}
  end.

(** The text returned by a tool. *)
Definition toolText (reply : Reply) : string :=
  match clientResult (fun msg _ => JsError msg) reply with
  | Ok data => JSON_stringify_pretty data
  | Throw e => JSON_stringify (Mcp.failure (errorText e))
  end.

(** The shape of a request of the proxy: a GET without body or a POST
    with a JSON object as body. *)
Definition requestShape (method : Method) (body : option Json) : Prop :=
  match method, body with
  | GET, None => True
  | POST, Some (JObj _) => True
  | _, _ => False
  end.

(** An outbound call as the upstream sees it. *)
Definition wellFormedCall (key : string) (c : OutCall) : Prop :=
  call_headers c = [("Content-Type", "application/json"); ("api-key", key)]
  /\ String.prefix API_BASE_URL (call_url c) = true
  /\ match call_method c with
     | GET => call_body c = None
     | POST => exists fields, call_body c = Some (JSON_stringify (JObj fields))
     end.

(** The shape of a plan: a rejection with status 400, the failure of a
    conversion to text, or one request of the shape above. *)
Definition planShape (s : Step) : Prop :=
  match s with
  | Reject r => exists msg, r = badRequest msg
  | Fail e => e = JsError conversionError
  | Call _ method body => requestShape method body
  end.

(** *** Parameters *)

(** Two records that agree on the listed keys. *)
Definition agreeOn (keys : list string) (a b : list (string * Json)) : Prop :=
  forall k, In k keys -> lookup k a = lookup k b.

Inductive Place : Type := InQuery | InBody.

Definition input (place : Place) (req : Request) : list (string * Json) :=
  match place with
  | InQuery => query req
  | InBody => body req
  end.

(** The parameter a route of the Express shells tests before calling, and
    where it reads it. *)
Definition checked (op : Operation) : option (Place * string) :=
  match op with
  | get_api_usage | instagram_get_niches | youtube_get_topics | youtube_get_niches
  | tiktok_get_niches => None
  | instagram_search | youtube_search | tiktok_search => Some (InBody, "filters")
  | instagram_natural_language_search | youtube_natural_language_search
  | tiktok_natural_language_search => Some (InBody, "query")
  | instagram_get_content_detail | youtube_get_content_detail
  | tiktok_get_content_detail => Some (InQuery, "contentId")
  | youtube_get_profile | youtube_get_performance | youtube_get_performance_history
  | youtube_get_sponsorship | youtube_get_contact | youtube_get_audience =>
      Some (InQuery, "channelId")
  | instagram_get_profile | instagram_get_contact | instagram_get_performance
  | instagram_get_performance_history | instagram_get_sponsorship | instagram_get_audience
  | tiktok_get_profile | tiktok_get_contact | tiktok_get_performance
  | tiktok_get_performance_history | tiktok_get_audience => Some (InQuery, "uniqueId")
  end.

(** Whether every value the operation turns into text has one: the
    [start] and [end] of a usage call when truthy, the identifier of an
    operation that writes one into its URL. *)
Definition converts (op : Operation) (args : list (string * Json)) : bool :=
  match op, checked op with
  | get_api_usage, _ =>
      match usageText args with Some _ => true | None => false end
  | _, Some (InQuery, p) =>
      match toString (lookup p args) with Some _ => true | None => false end
  | _, _ => true
  end.

(** The answer an Express route gives before any call, if it gives one:
    400 when the tested parameter is falsy, 500 when a value has no text. *)
Definition beforeCall (op : Operation) (req : Request) : option Response :=
  match checked op with
  | Some (place, p) =>
      if truthy (lookup p (input place req))
      then if converts op (query req) then None else Some conversionFailure
      else Some (errorAnswer 400 (p ++ " is required"))
  | None => if converts op (query req) then None else Some conversionFailure
  end.

(** What a plan answers before any call, if it does. *)
Definition answered (s : Step) : option Response :=
  match s with
  | Reject r => Some r
  | Fail e => Some (errorAnswer 500 (errorText e))
  | Call _ _ _ => None
  end.

(** The answer of the second shell to a request that needs the key when
    there is none. *)
Definition keyFailure : Response :=
  errorAnswer 500 "CREATORDB_API_KEY environment variable is required".

Definition naturalLanguageSearches : list Operation :=
  [instagram_natural_language_search; youtube_natural_language_search;
   tiktok_natural_language_search].

(** The given value when it is truthy, the default otherwise: [v || d]. *)
Definition truthyOr (v : Value) (d : Json) : Json :=
  match v with
  | Some x => if truthy v then x else d
  | None => d
  end.

(** The property list a search tool forwards. *)
Definition toolForwarded (args : list (string * Json)) : list (string * Json) :=
  ((match lookup "filters" args with Some f => [("filters", f)] | None => [] end)
   ++ [("pageSize", truthyOr (lookup "pageSize" args) (JNum 20));
       ("offset", truthyOr (lookup "offset" args) (JNum 0))]
   ++ (match lookup "sortBy" args with
       | Some s => if truthy (Some s) then [("sortBy", s)] else []
       | None => []
       end)
   ++ (match lookup "desc" args with Some d => [("desc", d)] | None => [] end))%list.

(** The property list a natural-language tool forwards. *)
Definition toolQuestion (args : list (string * Json)) : list (string * Json) :=
  ((match lookup "query" args with Some q => [("query", q)] | None => [] end)
   ++ [("pageSize", truthyOr (lookup "pageSize" args) (JNum 20));
       ("offset", truthyOr (lookup "offset" args) (JNum 0))])%list.

(** The property list a natural-language route of the Express shells
    forwards for the query [q]. *)
Definition question (b : list (string * Json)) (q : Json) : list (string * Json) :=
  [("query", q);
   ("pageSize", givenOr (lookup "pageSize" b) (JNum 20));
   ("offset", givenOr (lookup "offset" b) (JNum 0))].

(** The five fields a search reads. *)
Definition searchFields : list string :=
  ["filters"; "pageSize"; "offset"; "sortBy"; "desc"].

(** *** The tool table *)

(** The entry of the tool table with a given name, the first if several. *)
Definition entry (n : string) : option McpServer.Tool :=
  find (fun t => String.eqb (McpServer.name t) n) McpServer.tools.

(** No string occurs twice. *)
Fixpoint distinctb (l : list string) : bool :=
  match l with
  | [] => true
  | x :: rest => negb (existsb (String.eqb x) rest) && distinctb rest
  end.

(** *** Reading percent escapes back *)

Definition hexValue (c : ascii) : option nat :=
  let n := nat_of_ascii c in
  if between 48 57 c then Some (n - 48)%nat
  else if between 65 70 c then Some (n - 55)%nat
  else None.

(** The bytes a percent-encoded text stands for; [None] on an escape that
    is cut short or not hexadecimal. *)
Fixpoint percentDecode (s : string) : option string :=
  match s with
  | EmptyString => Some EmptyString
  | String c rest =>
      if Ascii.eqb c "%" then
        match rest with
        | String h (String l rest') =>
            match hexValue h, hexValue l, percentDecode rest' with
            | Some a, Some b, Some r => Some (String (ascii_of_nat (16 * a + b)) r)
            | _, _, _ => None
            end
        | _ => None
        end
      else option_map (String c) (percentDecode rest)
  end.

(** *** Replies used as examples *)

Definition notFoundPage : Reply := Responded 502 (NotJson "Unexpected token < in JSON").

Definition profileBody : list (string * Json) :=
  [("success", JBool true); ("data", JObj [("uniqueId", JStr "nasa")]);
   ("traceId", JStr "t1"); ("timestamp", JNum 1700000000000)].

End MoreTerms.

(* ================================================================== *)
(** ** The response classifier *)
(* ================================================================== *)

Module ClassifierFacts.
Import Js Net Client Terms.

Lemma ok_spec (status : Z) : ok status = true <-> 200 <= status <= 299.
Proof.
  unfold ok. rewrite andb_true_iff, !Z.leb_le. tauto.
Qed.

Lemma isFalse_spec (v : Value) : isFalse v = true <-> v = Some (JBool false).
Proof.
  split.
  - destruct v as [[| [|] | | | |]|]; simpl; intro H; try discriminate H; reflexivity.
  - intros ->. reflexivity.
Qed.

Lemma responseFailed_object (status : Z) (fields : list (string * Json)) :
  responseFailed status (JObj fields)
  = Ok (negb (ok status) || isFalse (lookup "success" fields)).
Proof.
  unfold responseFailed. destruct (ok status); reflexivity.
Qed.

Lemma failed_iff (status : Z) (fields : list (string * Json)) :
  negb (ok status) || isFalse (lookup "success" fields) = true
  <-> upstreamFailure status fields.
Proof.
  unfold upstreamFailure.
  rewrite orb_true_iff, negb_true_iff, isFalse_spec, <- ok_spec.
  destruct (ok status); intuition congruence.
Qed.

Lemma failureMessage_object (status : Z) (fields : list (string * Json)) :
  failureMessage status (JObj fields) = Ok (chosenMessage status fields).
Proof.
  unfold failureMessage, chosenMessage, firstTruthy. simpl.
  destruct (truthy (lookup "errorDescription" fields)); [reflexivity|].
  destruct (truthy (lookup "message" fields)); reflexivity.
Qed.

(** The classifier on an object body, as one equation. *)
Lemma classify_object (mkError : string -> Z -> Exn) (status : Z)
    (fields : list (string * Json)) :
  classify mkError status (JObj fields)
  = if negb (ok status) || isFalse (lookup "success" fields)
    then Throw (reported mkError status fields)
    else Ok (JObj fields).
Proof.
  unfold classify. rewrite responseFailed_object.
  destruct (negb (ok status) || isFalse (lookup "success" fields)); [|reflexivity].
  rewrite failureMessage_object. unfold reported, stringOf.
  destruct (toString (chosenMessage status fields)); reflexivity.
Qed.

(** The classifier on a body that is neither [null] nor an object: the
    status alone decides, and the generic message is the one chosen. *)
Lemma classify_plain (mkError : string -> Z -> Exn) (status : Z) (data : Json) :
  data <> JNull ->
  classify mkError status data
  = if negb (ok status) || isFalse (lookup "success" (fieldsOf data))
    then Throw (reported mkError status (fieldsOf data))
    else Ok data.
Proof.
  intro N. destruct data as [|b|t|s|items|fields];
    try (contradiction N; reflexivity);
    try apply classify_object;
    unfold classify, responseFailed; destruct (ok status); reflexivity.
Qed.

(** A [null] body has no properties to read: reading one throws. *)
Lemma classify_null (mkError : string -> Z -> Exn) (status : Z) :
  classify mkError status JNull
  = Throw (JsError ("Cannot read properties of null (reading '"
                    ++ (if ok status then "success" else "errorDescription") ++ "')")).
Proof. unfold classify, responseFailed. destruct (ok status); reflexivity. Qed.

Lemma classify_null_2xx (mkError : string -> Z -> Exn) :
  classify mkError 200 JNull
  = Throw (JsError "Cannot read properties of null (reading 'success')").
Proof. reflexivity. Qed.

(** One call goes out whatever the answer is. *)
Lemma makeApiRequest_run (key endpoint : string) (method : Method) (body : option Json)
    (status : Z) (data : Json) (up : Upstream) (log : list OutCall) :
  up (requestOptions key endpoint method body) = Responded status (Parsed data) ->
  makeApiRequest key endpoint method body up log
  = (classify (fun msg _ => JsError msg) status data,
     (log ++ [requestOptions key endpoint method body])%list).
Proof.
  intro H. unfold makeApiRequest, bind, fetch. rewrite H. reflexivity.
Qed.

(** The error reported under the constructor of the first shell and of the
    tool shell. *)
Lemma reported_plain (status : Z) (fields : list (string * Json)) :
  reported (fun msg _ => JsError msg) status fields = JsError (threeTier status fields).
Proof.
  unfold threeTier, reported.
  destruct (toString (chosenMessage status fields)); reflexivity.
Qed.

(** A [null] body answered with status 200 is reported as a failure,
    though the status is in range and no [success] field is [false]. *)
Lemma null_body_is_a_failure :
  ok 200 = true
  /\ fst (run (makeApiRequest "k" "/usage" GET None)
              (fun _ => Responded 200 (Parsed JNull)))
     = Throw (JsError "Cannot read properties of null (reading 'success')")
  /\ fst (run (makeApiRequest "k" "/usage" GET None)
              (fun _ => Responded 400 (Parsed (JObj [("errorDescription", noText)]))))
     = Throw (JsError "Cannot convert object to primitive value").
Proof. repeat split. Qed.

(** C1, amended. For every HTTP status and every decoded upstream body
    other than [null], the classifier closing [makeApiRequest] fails
    exactly when the status is outside 200..299 or the body's [success]
    field is [false].  The failure carries the text of the first truthy one
    of [errorDescription] and [message], else the generic text with the
    status; when the chosen value is an object that has no text, the
    failure is the type error of its conversion.  Otherwise the decoded
    body is returned as it is.  A [null] body is a failure under every
    status, with the type error of reading a property of it.  The second
    shell closes its [makeApiRequest] with the same classifier, reporting
    the failure with the status. *)
Theorem classifier_contract :
  forall (key endpoint : string) (method : Method) (body : option Json)
         (status : Z) (data : Json),
    let up : Upstream := fun _ => Responded status (Parsed data) in
    let outcome := fst (run (makeApiRequest key endpoint method body) up) in
    let fields := fieldsOf data in
    (data <> JNull ->
     ((exists e, outcome = Throw e) <-> upstreamFailure status fields)
     /\ (upstreamFailure status fields ->
         forall text, toString (chosenMessage status fields) = Some text ->
                      outcome = Throw (JsError text))
     /\ (upstreamFailure status fields ->
         toString (chosenMessage status fields) = None ->
         outcome = Throw (JsError "Cannot convert object to primitive value"))
     /\ (~ upstreamFailure status fields -> outcome = Ok data)
     /\ (forall mkError,
           classify mkError status data
           = if negb (ok status) || isFalse (lookup "success" fields)
             then Throw (match toString (chosenMessage status fields) with
                         | Some text => mkError text status
                         | None => JsError "Cannot convert object to primitive value"
                         end)
             else Ok data))
    /\ (data = JNull ->
        outcome
        = Throw (JsError ("Cannot read properties of null (reading '"
                          ++ (if ok status then "success" else "errorDescription")
                          ++ "')")))
    /\ chosenMessage status fields
       = (if truthy (lookup "errorDescription" fields) then lookup "errorDescription" fields
          else if truthy (lookup "message" fields) then lookup "message" fields
               else Some (JStr ("API Error: " ++ string_of_Z status)))
    /\ (nonEmpty key = true ->
        fst (run (V2.makeApiRequest (Some key) endpoint method body) up)
        = classify ApiError status data).
Proof.
  intros key endpoint method body status data up outcome fields.
  assert (R : outcome = classify (fun msg _ => JsError msg) status data).
  { unfold outcome, run.
    rewrite (@makeApiRequest_run key endpoint method body status data up [] eq_refl).
    reflexivity. }
  split; [|split].
  - intro N.
    assert (E : outcome
                = if negb (ok status) || isFalse (lookup "success" fields)
                  then Throw (reported (fun msg _ => JsError msg) status fields)
                  else Ok data)
      by (rewrite R; apply classify_plain, N).
    pose proof (failed_iff status fields) as F.
    destruct (negb (ok status) || isFalse (lookup "success" fields)) eqn:B.
    + assert (U : upstreamFailure status fields) by (apply F; reflexivity).
      split; [split; [intros _; exact U | intros _; eexists; exact E]|].
      split; [intros _ text T; rewrite E; unfold reported; rewrite T; reflexivity|].
      split; [intros _ T; rewrite E; unfold reported; rewrite T; reflexivity|].
      split; [intro H; contradiction|].
      intro mkError. rewrite (classify_plain _ _ N). fold fields. rewrite B. reflexivity.
    + assert (U : ~ upstreamFailure status fields).
      { intro U. apply F in U. discriminate U. }
      split; [split; [intros [e He]; rewrite E in He; discriminate He
                     | intro H; contradiction]|].
      split; [intro H; contradiction|].
      split; [intro H; contradiction|].
      split; [intros _; exact E|].
      intro mkError. rewrite (classify_plain _ _ N). fold fields. rewrite B. reflexivity.
  - intro N. rewrite R, N. apply classify_null.
  - split.
    + unfold chosenMessage, firstTruthy. simpl.
      destruct (truthy (lookup "errorDescription" fields)); [reflexivity|].
      destruct (truthy (lookup "message" fields)); reflexivity.
    + intro K. unfold run, V2.makeApiRequest, keyMissing. rewrite K. reflexivity.
Qed.

(** The theorem at the quota answer. *)
Lemma classifier_contract_witness :
  fst (run (makeApiRequest "k" "/usage" GET None) quotaExceeded)
  = Throw (JsError "quota exceeded").
Proof.
  refine (proj1 (proj2 (proj1 (classifier_contract "k" "/usage" GET None 429
           (JObj [("success", JBool false); ("errorDescription", JStr "quota exceeded")]))
           _)) _ "quota exceeded" eq_refl).
  - discriminate.
  - right. reflexivity.
Defined.

(** The two messages of the specification's examples. *)
Example classifier_quota_exceeded :
  classify ApiError 429
    (JObj [("success", JBool false); ("errorDescription", JStr "quota exceeded")])
  = Throw (ApiError "quota exceeded" 429).
Proof. reflexivity. Qed.

Example classifier_generic_message :
  classify ApiError 400 (JObj []) = Throw (ApiError "API Error: 400" 400).
Proof. reflexivity. Qed.

End ClassifierFacts.

(* ================================================================== *)
(** ** The identifier sanitizer and the alphabet of encoded text *)
(* ================================================================== *)

Module SanitizerFacts.
Import Js Uri V2 Terms.

Lemma allChars_app (p : ascii -> bool) (a b : string) :
  allChars p (a ++ b) = allChars p a && allChars p b.
Proof.
  induction a as [|c a IH]; simpl.
  - reflexivity.
  - rewrite IH. apply andb_assoc.
Qed.

Lemma allChars_weaken (p q : ascii -> bool) (s : string) :
  (forall c, p c = true -> q c = true) -> allChars p s = true -> allChars q s = true.
Proof.
  intro W. induction s as [|c s IH]; simpl; [reflexivity|].
  rewrite !andb_true_iff. intros [Hc Hs]. split; [apply W, Hc | apply IH, Hs].
Qed.

Lemma percent_encoded (c : ascii) : allChars encodedChar (percent c) = true.
Proof.
  destruct c as [[|] [|] [|] [|] [|] [|] [|] [|]]; vm_compute; reflexivity.
Qed.

Lemma encodeURIComponent_encoded (s : string) :
  allChars encodedChar (encodeURIComponent s) = true.
Proof.
  induction s as [|c s IH]; simpl; [reflexivity|].
  rewrite allChars_app, IH, andb_true_r.
  destruct (uriUnreserved c) eqn:U.
  - simpl. unfold encodedChar. rewrite U. reflexivity.
  - apply percent_encoded.
Qed.

Lemma formByte_encoded (c : ascii) : allChars formChar (formByte c) = true.
Proof.
  destruct c as [[|] [|] [|] [|] [|] [|] [|] [|]]; vm_compute; reflexivity.
Qed.

Lemma formEncode_encoded (s : string) : allChars formChar (formEncode s) = true.
Proof.
  induction s as [|c s IH]; simpl; [reflexivity|].
  rewrite allChars_app, IH, formByte_encoded. reflexivity.
Qed.

Lemma paramsToString_encoded (params : URLSearchParams) :
  allChars formChar (paramsToString params) = true.
Proof.
  induction params as [|[k v] rest IH]; [reflexivity|].
  change (allChars formChar
            (formEncode k ++ "=" ++ formEncode v
             ++ match rest with [] => "" | _ :: _ => "&" ++ paramsToString rest end) = true).
  rewrite !allChars_app, !formEncode_encoded.
  destruct rest as [|p rest']; [reflexivity|].
  rewrite allChars_app, IH. reflexivity.
Qed.

Lemma append_assoc (a b c : string) : (a ++ b) ++ c = a ++ (b ++ c).
Proof.
  induction a as [|x a IH]; simpl; [reflexivity|]. now rewrite IH.
Qed.

Lemma encodeURIComponent_app (a b : string) :
  encodeURIComponent (a ++ b) = encodeURIComponent a ++ encodeURIComponent b.
Proof.
  induction a as [|c a IH]; simpl; [reflexivity|].
  rewrite IH. symmetry. apply append_assoc.
Qed.

(** Text made of unreserved characters is its own encoding. *)
Lemma encodeURIComponent_unreserved (s : string) :
  allChars uriUnreserved s = true -> encodeURIComponent s = s.
Proof.
  induction s as [|c s IH]; simpl; [reflexivity|].
  rewrite andb_true_iff. intros [Hc Hs]. rewrite Hc, IH by assumption. reflexivity.
Qed.

Lemma sanitizeId_strips_one (rest : string) :
  sanitizeId (String "@" rest) = encodeURIComponent rest.
Proof. reflexivity. Qed.

Lemma sanitizeId_other (c : ascii) (rest : string) :
  c <> "@"%char -> sanitizeId (String c rest) = encodeURIComponent (String c rest).
Proof.
  intro N. unfold sanitizeId, stripLeadingAt.
  destruct (Ascii.eqb c "@") eqn:E; [|reflexivity].
  apply Ascii.eqb_eq in E. contradiction.
Qed.

(** C3. [sanitizeId] gives a result on every string: on the empty string
    the empty string; on a string starting with an at sign the encoding of
    what follows that one sign (a second sign is kept and encoded); on any
    other string its encoding.  The result holds only unreserved characters
    and percent escapes.  On the two spellings of the specification's
    identifier the results agree and equal the encoding of the bare name. *)
Theorem sanitizeId_contract :
  sanitizeId "" = ""
  /\ (forall rest, sanitizeId (String "@" rest) = encodeURIComponent rest)
  /\ (forall c rest, c <> "@"%char ->
        sanitizeId (String c rest) = encodeURIComponent (String c rest))
  /\ (forall id, exists out,
        sanitizeId id = out /\ out = encodeURIComponent (stripLeadingAt id)
        /\ allChars encodedChar out = true)
  /\ sanitizeId "@@tiktok" = "%40tiktok"
  /\ sanitizeId "@tiktok" = sanitizeId "tiktok"
  /\ sanitizeId "tiktok" = encodeURIComponent "tiktok"
  /\ encodeURIComponent "tiktok" = "tiktok".
Proof.
  split; [reflexivity|].
  split; [exact sanitizeId_strips_one|].
  split; [exact sanitizeId_other|].
  split.
  - intro id. exists (sanitizeId id). split; [reflexivity|]. split; [reflexivity|].
    unfold sanitizeId. apply encodeURIComponent_encoded.
  - repeat split; reflexivity.
Qed.

(** The theorem at the bare name. *)
Lemma sanitizeId_contract_witness :
  sanitizeId "tiktok" = encodeURIComponent "tiktok".
Proof.
  apply (proj1 (proj2 (proj2 sanitizeId_contract)) "t"%char "iktok").
  discriminate.
Defined.

End SanitizerFacts.

(* ================================================================== *)
(** ** What a route does: reject, or call once and answer *)
(* ================================================================== *)

Module RouteFacts.
Import Js Net Uri Client Http Terms.

Section Plans.

Variable request : string -> Method -> option Json -> M Json.
Variable onError : Exn -> M Response.

Lemma usage_exec req up log :
  usage request onError req up log = exec request onError (usagePlan req) up log.
Proof.
  unfold usage, usagePlan, exec, tryCatch, bind, lift.
  destruct (usageQuery (query req)); reflexivity.
Qed.

Lemma getById_exec path param text req up log :
  getById request onError path param text req up log
  = exec request onError (getByIdPlan path param text req) up log.
Proof.
  unfold getById, getByIdPlan.
  destruct (truthy (lookup param (query req))); [|reflexivity].
  unfold exec, tryCatch, bind, lift. cbv beta iota.
  destruct (text (lookup param (query req))); reflexivity.
Qed.

Lemma search_exec path req up log :
  search request onError path req up log = exec request onError (searchPlan path req) up log.
Proof.
  unfold search, searchPlan.
  destruct (truthy (lookup "filters" (body req))); reflexivity.
Qed.

Lemma nls_exec path req up log :
  naturalLanguageSearch request onError path req up log = exec request onError (nlsPlan path req) up log.
Proof.
  unfold naturalLanguageSearch, nlsPlan.
  destruct (truthy (lookup "query" (body req))); reflexivity.
Qed.

Lemma plain_exec path req up log :
  plain request onError path req up log = exec request onError (plainPlan path req) up log.
Proof. reflexivity. Qed.

End Plans.

End RouteFacts.

(* ================================================================== *)
(** ** Facts about the two Express shells *)
(* ================================================================== *)

Module HttpFacts.
Import Js Net Uri Client Http RouteFacts ClassifierFacts Terms MoreTerms.

Lemma v1_request_log (key endpoint : string) (method : Method) (body : option Json)
    (up : Upstream) (log : list OutCall) :
  snd (Client.makeApiRequest key endpoint method body up log)
  = (log ++ [requestOptions key endpoint method body])%list.
Proof.
  unfold Client.makeApiRequest, bind, fetch.
  destruct (up (requestOptions key endpoint method body)) as [status [data|m]|m];
    reflexivity.
Qed.

Lemma v2_request_log (key endpoint : string) (method : Method) (body : option Json)
    (up : Upstream) (log : list OutCall) :
  nonEmpty key = true ->
  snd (V2.makeApiRequest (Some key) endpoint method body up log)
  = (log ++ [requestOptions key endpoint method body])%list.
Proof.
  intro K. unfold V2.makeApiRequest, keyMissing. rewrite K. simpl.
  unfold bind, fetch.
  destruct (up (requestOptions key endpoint method body)) as [status [data|m]|m];
    reflexivity.
Qed.

Lemma v2_request_keyless (env : option string) (endpoint : string) (method : Method)
    (body : option Json) (up : Upstream) (log : list OutCall) :
  keyMissing env = true ->
  V2.makeApiRequest env endpoint method body up log = (Throw (ApiError keyError 500), log).
Proof.
  intro K. unfold V2.makeApiRequest. rewrite K. destruct env; reflexivity.
Qed.

Lemma v2_request_run (key endpoint : string) (method : Method) (body : option Json)
    (status : Z) (data : Json) (up : Upstream) (log : list OutCall) :
  nonEmpty key = true ->
  up (requestOptions key endpoint method body) = Responded status (Parsed data) ->
  V2.makeApiRequest (Some key) endpoint method body up log
  = (classify ApiError status data,
     (log ++ [requestOptions key endpoint method body])%list).
Proof.
  intros K H. unfold V2.makeApiRequest, keyMissing. rewrite K. simpl.
  unfold bind, fetch. rewrite H. reflexivity.
Qed.

Lemma onError_answers (e : Exn) (up : Upstream) (log : list OutCall) :
  exists r, V1.onError e up log = (Ok r, log).
Proof. eexists. reflexivity. Qed.

Lemma handleError_answers (e : Exn) (up : Upstream) (log : list OutCall) :
  exists r, V2.handleError e up log = (Ok r, log).
Proof. destruct e; eexists; reflexivity. Qed.

(** The client of each shell, once the reply to its call is known. *)
Lemma client_reply key endpoint method body up log :
  Client.makeApiRequest key endpoint method body up log
  = (clientResult (fun msg _ => JsError msg) (up (requestOptions key endpoint method body)),
     (log ++ [requestOptions key endpoint method body])%list).
Proof.
  unfold Client.makeApiRequest, bind, fetch, clientResult.
  destruct (up (requestOptions key endpoint method body)) as [status [data|m]|m];
    reflexivity.
Qed.

Lemma second_client_reply key endpoint method body up log :
  nonEmpty key = true ->
  V2.makeApiRequest (Some key) endpoint method body up log
  = (clientResult ApiError (up (requestOptions key endpoint method body)),
     (log ++ [requestOptions key endpoint method body])%list).
Proof.
  intro K. unfold V2.makeApiRequest, keyMissing. rewrite K. simpl.
  unfold bind, fetch, clientResult.
  destruct (up (requestOptions key endpoint method body)) as [status [data|m]|m];
    reflexivity.
Qed.

Lemma first_exec_call key endpoint method body up log :
  exec (Client.makeApiRequest key) V1.onError (Call endpoint method body) up log
  = (Ok (firstAnswer (up (requestOptions key endpoint method body))),
     (log ++ [requestOptions key endpoint method body])%list).
Proof.
  unfold exec, tryCatch, bind. rewrite client_reply. unfold firstAnswer.
  destruct (clientResult _ _) as [data|e]; reflexivity.
Qed.

Lemma second_exec_call key endpoint method body up log :
  nonEmpty key = true ->
  exec (V2.makeApiRequest (Some key)) V2.handleError (Call endpoint method body) up log
  = (Ok (secondAnswer (up (requestOptions key endpoint method body))),
     (log ++ [requestOptions key endpoint method body])%list).
Proof.
  intro K. unfold exec, tryCatch, bind. rewrite second_client_reply by exact K.
  unfold secondAnswer.
  destruct (clientResult _ _) as [data|[m|m s]]; reflexivity.
Qed.

(** A step that answers before any call does so with or without the
    key. *)
Lemma second_exec_answered env (s : Step) (r : Response) up log :
  planShape s ->
  answered s = Some r ->
  exec (V2.makeApiRequest env) V2.handleError s up log = (Ok r, log).
Proof.
  destruct s as [r'|e|endpoint method body]; simpl; intros S H;
    [injection H as <- | subst e; injection H as <- | discriminate H]; reflexivity.
Qed.

(** What a keyless second shell answers on a request. *)
Lemma v2_keyless_exec (env : option string) (endpoint : string) (method : Method)
    (body : option Json) (up : Upstream) (log : list OutCall) :
  keyMissing env = true ->
  exec (V2.makeApiRequest env) V2.handleError (Call endpoint method body) up log
  = (Ok keyFailure, log).
Proof.
  intro K. unfold exec, tryCatch, bind. rewrite v2_request_keyless by exact K. reflexivity.
Qed.

(** The query string of the usage operation, in the Express shells and in
    the tool shell. *)
Lemma http_usageQuery_text (q : list (string * Json)) :
  Http.usageQuery q
  = match usageText q with
    | Some text => Ok text
    | None => Throw (JsError conversionError)
    end.
Proof.
  unfold Http.usageQuery, usageText, kept, andThen, stringOf, append.
  destruct (truthy (lookup "start" q)), (truthy (lookup "end" q));
    destruct (toString (lookup "start" q)), (toString (lookup "end" q)); reflexivity.
Qed.

Lemma tool_usageQuery_text (args : list (string * Json)) :
  Mcp.usageQuery args
  = match usageText args with
    | Some text => Ok text
    | None => Throw (JsError conversionError)
    end.
Proof.
  unfold Mcp.usageQuery, usageText, kept, andThen, stringOf, append.
  destruct (truthy (lookup "start" args)), (truthy (lookup "end" args));
    destruct (toString (lookup "start" args)), (toString (lookup "end" args)); reflexivity.
Qed.

(** Every route of either shell is the execution of a plan. *)
Ltac as_plan :=
  cbn beta iota zeta delta [V1.handler V2.handler];
  first [ rewrite usage_exec | rewrite getById_exec | rewrite search_exec
        | rewrite nls_exec | rewrite plain_exec ].

(** The plans, case by case. *)
Ltac plan_cases :=
  cbv beta iota zeta delta [beforeCall converts checked input answered planShape
                            usagePlan getByIdPlan searchPlan nlsPlan plainPlan
                            V1.interpolated V2.sanitized V2.encoded stringOf andThen];
  rewrite ?http_usageQuery_text;
  repeat match goal with
         | |- context [usageText ?q] => destruct (usageText q)
         | |- context [truthy ?v] => destruct (truthy v)
         | |- context [toString ?v] => destruct (toString v)
         end;
  cbv beta iota.

(** Every route of either shell runs a plan of the expected shape, which
    does not depend on the upstream and answers before any call exactly
    what [beforeCall] says. *)
Lemma first_handler_plan key op req :
  exists s,
    (forall up log,
        V1.handler key op req up log
        = exec (Client.makeApiRequest key) V1.onError s up log)
    /\ planShape s
    /\ answered s = beforeCall op req.
Proof.
  destruct op; eexists;
    (split; [intros up log; as_plan; reflexivity|]);
    (split; plan_cases; first [exact I | reflexivity | eexists; reflexivity]).
Qed.

Lemma second_handler_plan env op req :
  exists s,
    (forall up log,
        V2.handler env op req up log
        = exec (V2.makeApiRequest env) V2.handleError s up log)
    /\ planShape s
    /\ answered s = beforeCall op req.
Proof.
  destruct op; eexists;
    (split; [intros up log; as_plan; reflexivity|]);
    (split; plan_cases; first [exact I | reflexivity | eexists; reflexivity]).
Qed.

(** A request to the first shell is answered before any call, as
    [beforeCall] says, or from the reply to its one call. *)
Lemma first_handler_cases key op req :
  match beforeCall op req with
  | Some r => forall up, run (V1.handler key op req) up = (Ok r, [])
  | None =>
      exists endpoint method body,
        requestShape method body
        /\ forall up,
             run (V1.handler key op req) up
             = (Ok (firstAnswer (up (requestOptions key endpoint method body))),
                [requestOptions key endpoint method body])
  end.
Proof.
  destruct (first_handler_plan key op req) as [s [E [S A]]]. rewrite <- A.
  destruct s as [r|e|endpoint method body]; cbn [answered].
  - intro up. unfold run. rewrite E. reflexivity.
  - intro up. unfold run. rewrite E. reflexivity.
  - exists endpoint, method, body. split; [exact S|].
    intro up. unfold run. rewrite E. apply first_exec_call.
Qed.

Lemma second_handler_cases key op req :
  nonEmpty key = true ->
  match beforeCall op req with
  | Some r => forall up, run (V2.handler (Some key) op req) up = (Ok r, [])
  | None =>
      exists endpoint method body,
        requestShape method body
        /\ forall up,
             run (V2.handler (Some key) op req) up
             = (Ok (secondAnswer (up (requestOptions key endpoint method body))),
                [requestOptions key endpoint method body])
  end.
Proof.
  intro K.
  destruct (second_handler_plan (Some key) op req) as [s [E [S A]]]. rewrite <- A.
  destruct s as [r|e|endpoint method body]; cbn [answered].
  - intro up. unfold run. rewrite E. reflexivity.
  - intro up. unfold run. rewrite E. simpl in S. subst e. reflexivity.
  - exists endpoint, method, body. split; [exact S|].
    intro up. unfold run. rewrite E. apply second_exec_call. exact K.
Qed.

(** Without the key the second shell answers every request itself and
    calls nothing: what it answers before any call with a key, and the
    configuration failure where it would have called. *)
Lemma v2_keyless_handler (env : option string) (op : Operation) (req : Request)
    (up : Upstream) :
  keyMissing env = true ->
  run (V2.handler env op req) up
  = (Ok match beforeCall op req with
        | Some r => r
        | None => keyFailure
        end, []).
Proof.
  intro K.
  destruct (second_handler_plan env op req) as [s [E [S A]]]. rewrite <- A.
  unfold run. rewrite E.
  destruct s as [r|e|endpoint method body]; cbn [answered].
  - reflexivity.
  - simpl in S. subst e. reflexivity.
  - apply v2_keyless_exec, K.
Qed.

(** The answers given before any call: 400 naming the parameter, or 500
    with the type error of the conversion to text. *)
Lemma beforeCall_cases (op : Operation) (req : Request) (r : Response) :
  beforeCall op req = Some r -> earlyAnswer r.
Proof.
  unfold beforeCall.
  destruct (checked op) as [[place p]|];
    repeat match goal with
           | |- context [if ?b then _ else _] => destruct b
           end;
    intro H; try discriminate H; injection H as <-;
    [right; reflexivity | left; exists p; reflexivity | right; reflexivity].
Qed.

End HttpFacts.

(* ================================================================== *)
(** ** Start-up and the missing key *)
(* ================================================================== *)

Module StartupFacts.
Import Js Net Client Http HttpFacts Terms MoreTerms.

(** The second shell started without the key is running, takes a profile
    request and answers it with a failure of its own. *)
Lemma keyless_second_shell_serves :
  V2.start None = Running (V2.handler None)
  /\ (forall up : Upstream,
        run (V2.handler None instagram_get_profile profileRequest) up
        = (Ok {| status := 500;
                 payload :=
                   JObj [("success", JBool false);
                         ("error",
                          JStr "CREATORDB_API_KEY environment variable is required")] |},
           [])).
Proof. split; [reflexivity|]. intro up. reflexivity. Qed.

(** C8, amended. Started without the key, the first shell and the tool
    shell exit with code 1 and serve nothing.  The second shell has no
    start-up check: it runs, and answers every request itself, without any
    outbound call.  A request that makes no call when the key is set (a
    tested parameter is missing, or a parameter has no text) gets the
    answer it gets with the key; every request that reaches the upstream
    when the key is set is answered 500 with the configuration message.
    An empty key counts as none. *)
Theorem missing_key_behaviour :
  V1.start None = Exited 1
  /\ Mcp.start None = Exited 1
  /\ V2.start None = Running (V2.handler None)
  /\ (forall (env : option string) (op : Operation) (req : Request) (up : Upstream)
             (key : string),
        env = None \/ env = Some EmptyString ->
        nonEmpty key = true ->
        let keyed := run (V2.handler (Some key) op req) up in
        snd (run (V2.handler env op req) up) = []
        /\ (snd keyed = [] -> run (V2.handler env op req) up = keyed)
        /\ (snd keyed <> [] ->
            run (V2.handler env op req) up
            = (Ok {| status := 500;
                     payload :=
                       JObj [("success", JBool false);
                             ("error",
                              JStr "CREATORDB_API_KEY environment variable is required")] |},
               [])))
  /\ (forall (op : Operation) (req : Request) (up : Upstream),
        exists r,
          run (V2.handler None op req) up = (Ok r, [])
          /\ ((exists p,
                  r = {| status := 400;
                         payload :=
                           JObj [("success", JBool false);
                                 ("error", JStr (p ++ " is required"))] |})
              \/ r = {| status := 500;
                        payload :=
                          JObj [("success", JBool false);
                                ("error", JStr "Cannot convert object to primitive value")] |}
              \/ r = {| status := 500;
                        payload :=
                          JObj [("success", JBool false);
                                ("error",
                                 JStr "CREATORDB_API_KEY environment variable is required")] |})).
Proof.
  split; [reflexivity|]. split; [reflexivity|]. split; [reflexivity|]. split.
  - intros env op req up key E K keyed.
    assert (M : keyMissing env = true) by (destruct E as [->| ->]; reflexivity).
    pose proof (@v2_keyless_handler env op req up M) as L.
    pose proof (@second_handler_cases key op req K) as C.
    unfold keyed. rewrite L.
    destruct (beforeCall op req) as [r|].
    + rewrite C. repeat split. intro N. contradiction N. reflexivity.
    + destruct C as [endpoint [method [body [_ C]]]]. rewrite C.
      repeat split. intro N. discriminate N.
  - intros op req up. rewrite (@v2_keyless_handler None op req up eq_refl).
    eexists. split; [reflexivity|].
    destruct (beforeCall op req) as [r|] eqn:B.
    + destruct (beforeCall_cases _ _ B) as [P| ->]; [left; exact P | right; left; reflexivity].
    + right. right. reflexivity.
Qed.

(** The theorem at a profile request, which reaches the upstream when the
    key is set, and at the same request without its identifier. *)
Lemma missing_key_behaviour_witness :
  run (V2.handler None instagram_get_profile profileRequest) quotaExceeded
  = (Ok {| status := 500;
           payload :=
             JObj [("success", JBool false);
                   ("error", JStr "CREATORDB_API_KEY environment variable is required")] |},
     [])
  /\ run (V2.handler None instagram_get_profile noArguments) quotaExceeded
     = (Ok (badRequest "uniqueId is required"), []).
Proof.
  split.
  - refine (proj2 (proj2 (proj1 (proj2 (proj2 (proj2 missing_key_behaviour)))
             None instagram_get_profile profileRequest quotaExceeded "k"
             (or_introl eq_refl) eq_refl)) _).
    discriminate.
  - refine (proj1 (proj2 (proj1 (proj2 (proj2 (proj2 missing_key_behaviour)))
             None instagram_get_profile noArguments quotaExceeded "k"
             (or_introl eq_refl) eq_refl)) _).
    reflexivity.
Defined.

(** An empty key counts as missing in all three entry points. *)
Lemma empty_key_is_missing :
  V1.start (Some "") = Exited 1
  /\ Mcp.start (Some "") = Exited 1
  /\ (forall endpoint method body up log,
        V2.makeApiRequest (Some "") endpoint method body up log
        = (Throw (ApiError keyError 500), log)).
Proof. repeat split; reflexivity. Qed.

(** With a key every entry point runs. *)
Lemma started_with_key (key : string) :
  nonEmpty key = true ->
  V1.start (Some key) = Running (V1.handler key)
  /\ Mcp.start (Some key) = Running (Mcp.handleToolCall key).
Proof.
  intro K. unfold V1.start, Mcp.start, keyMissing. rewrite K. split; reflexivity.
Qed.

End StartupFacts.

(* ================================================================== *)
(** ** The status of a failure answered by the Express shells *)
(* ================================================================== *)

Module StatusFacts.
Import Js Net Client Http RouteFacts ClassifierFacts HttpFacts Terms MoreTerms.

Lemma classify_failure (mkError : string -> Z -> Exn) (status : Z)
    (fields : list (string * Json)) :
  upstreamFailure status fields ->
  classify mkError status (JObj fields) = Throw (reported mkError status fields).
Proof.
  intro U. rewrite classify_object.
  apply failed_iff in U. rewrite U. reflexivity.
Qed.

(** A call of the first shell answered by a failing upstream: 500. *)
Lemma v1_call_failure key endpoint method body status fields log :
  upstreamFailure status fields ->
  exec (Client.makeApiRequest key) V1.onError (Call endpoint method body)
       (always status fields) log
  = (Ok {| status := 500; payload := failure (threeTier status fields) |},
     (log ++ [requestOptions key endpoint method body])%list).
Proof.
  intro U. unfold exec, tryCatch, bind.
  rewrite (@makeApiRequest_run key endpoint method body status (JObj fields)
             (always status fields) log eq_refl).
  rewrite (classify_failure _ U), reported_plain. reflexivity.
Qed.

(** The same call in the second shell: the upstream status, when the
    chosen message has a text. *)
Lemma v2_call_failure key endpoint method body status fields text log :
  nonEmpty key = true ->
  upstreamFailure status fields ->
  toString (chosenMessage status fields) = Some text ->
  exec (V2.makeApiRequest (Some key)) V2.handleError (Call endpoint method body)
       (always status fields) log
  = (Ok {| Http.status := status; payload := failure text |},
     (log ++ [requestOptions key endpoint method body])%list).
Proof.
  intros K U T. unfold exec, tryCatch, bind.
  rewrite (@v2_request_run key endpoint method body status (JObj fields)
             (always status fields) log K eq_refl).
  rewrite (classify_failure _ U). unfold reported. rewrite T. reflexivity.
Qed.

(** For every route and request of the second shell, a failing upstream
    answer whose message has a text comes back under the upstream status,
    unless the request was answered before any call. *)
Lemma v2_failure_status key op req status fields text :
  nonEmpty key = true ->
  upstreamFailure status fields ->
  toString (chosenMessage status fields) = Some text ->
  exists r calls,
    run (V2.handler (Some key) op req) (always status fields) = (Ok r, calls)
    /\ ((calls = [] /\ beforeCall op req = Some r)
        \/ (length calls = 1%nat /\ Http.status r = status
            /\ payload r = failure text)).
Proof.
  intros K U T.
  destruct (second_handler_plan (Some key) op req) as [s [E [S A]]].
  unfold run. rewrite E. destruct s as [r|e|endpoint method body].
  - do 2 eexists. split; [reflexivity|]. left. split; [reflexivity|].
    symmetry. exact A.
  - rewrite (@second_exec_answered _ _ _ _ _ S eq_refl).
    do 2 eexists. split; [reflexivity|]. left. split; [reflexivity|].
    symmetry. exact A.
  - rewrite (v2_call_failure _ _ _ _ _ K U T).
    do 2 eexists. split; [reflexivity|]. right. repeat split; reflexivity.
Qed.

(** In the first shell the same answers all come back as 500. *)
Lemma v1_failure_status key op req status fields :
  upstreamFailure status fields ->
  exists r calls,
    run (V1.handler key op req) (always status fields) = (Ok r, calls)
    /\ ((calls = [] /\ beforeCall op req = Some r)
        \/ (length calls = 1%nat /\ Http.status r = 500
            /\ payload r = failure (threeTier status fields))).
Proof.
  intro U.
  destruct (first_handler_plan key op req) as [s [E [S A]]].
  unfold run. rewrite E. destruct s as [r|e|endpoint method body].
  - do 2 eexists. split; [reflexivity|]. left. split; [reflexivity|].
    symmetry. exact A.
  - do 2 eexists. split; [reflexivity|]. left. split; [reflexivity|].
    symmetry. exact A.
  - rewrite (v1_call_failure _ _ _ _ _ U).
    do 2 eexists. split; [reflexivity|]. right. repeat split; reflexivity.
Qed.

(** C2, at the failing input. The upstream answers the usage call with
    status 429 and a quota message: the first shell answers 500, where the
    second shell, on the same request, answers 429. *)
Theorem first_shell_loses_upstream_status :
  fst (run (V1.handler "k" get_api_usage noArguments) quotaExceeded)
  = Ok {| status := 500; payload := failure "quota exceeded" |}
  /\ fst (run (V2.handler (Some "k") get_api_usage noArguments) quotaExceeded)
     = Ok {| status := 429; payload := failure "quota exceeded" |}.
Proof. split; reflexivity. Qed.

End StatusFacts.

(* ================================================================== *)
(** ** How the second shell writes parameters into the upstream URL *)
(* ================================================================== *)

Module EncodingFacts.
Import Js Net Uri Client Http RouteFacts HttpFacts SanitizerFacts Terms MoreTerms.

Lemma encodedChar_urlChar (c : ascii) : encodedChar c = true -> urlChar c = true.
Proof. intro H. unfold urlChar. rewrite H. reflexivity. Qed.

Lemma formChar_urlChar (c : ascii) : formChar c = true -> urlChar c = true.
Proof. intro H. unfold urlChar. rewrite H. apply orb_true_iff. left. apply orb_true_r. Qed.

Lemma identifierText_encoded (p : string) (text : string) :
  allChars encodedChar (identifierText p text) = true.
Proof.
  unfold identifierText, V2.sanitizeId.
  destruct (String.eqb p "uniqueId"); apply encodeURIComponent_encoded.
Qed.

Lemma usageText_encoded (q : list (string * Json)) (text : string) :
  usageText q = Some text -> allChars formChar text = true.
Proof.
  unfold usageText. destruct (kept "start" q), (kept "end" q); intro H;
    try discriminate H. injection H as <-. apply paramsToString_encoded.
Qed.

Lemma v2_call_log key endpoint method body up log :
  nonEmpty key = true ->
  snd (exec (V2.makeApiRequest (Some key)) V2.handleError (Call endpoint method body) up log)
  = (log ++ [requestOptions key endpoint method body])%list.
Proof.
  intro K. rewrite second_exec_call by exact K. reflexivity.
Qed.

Lemma v1_call_log key endpoint method body up log :
  snd (exec (Client.makeApiRequest key) V1.onError (Call endpoint method body) up log)
  = (log ++ [requestOptions key endpoint method body])%list.
Proof. rewrite first_exec_call. reflexivity. Qed.

(** A channel identifier written with a leading at sign keeps it, encoded:
    it is not passed through [sanitizeId]. *)
Lemma channel_id_keeps_at_sign :
  (forall up : Upstream,
     map call_url (snd (run (V2.handler (Some "k") youtube_get_profile handleRequest) up))
     = ["https://apiv3.creatordb.app/youtube/profile?channelId=%40MrBeast"])
  /\ V2.sanitizeId "@MrBeast" = "MrBeast".
Proof.
  split; [|reflexivity].
  intro up. unfold run. as_plan.
  change (getByIdPlan "/youtube/profile" "channelId" V2.encoded handleRequest)
    with (Call "/youtube/profile?channelId=%40MrBeast" GET None).
  rewrite v2_call_log by reflexivity. reflexivity.
Qed.

Ltac url_pieces :=
  rewrite ?allChars_app, ?andb_true_iff; repeat split;
  first [ reflexivity
        | apply (@allChars_weaken encodedChar urlChar _ encodedChar_urlChar);
          apply encodeURIComponent_encoded
        | apply (@allChars_weaken formChar urlChar _ formChar_urlChar);
          eapply usageText_encoded; eassumption ].

Lemma v2_plan_url_safe key (s : Step) up c :
  nonEmpty key = true ->
  planShape s ->
  match s with
  | Call e _ _ => allChars urlChar (API_BASE_URL ++ e) = true
  | _ => True
  end ->
  In c (snd (exec (V2.makeApiRequest (Some key)) V2.handleError s up [])) ->
  allChars urlChar (call_url c) = true.
Proof.
  intros K P S. destruct s as [r|e|e m b].
  - simpl. contradiction.
  - simpl in P. subst e. simpl. contradiction.
  - rewrite v2_call_log by exact K. simpl. intros [<-|[]]. exact S.
Qed.

Lemma v2_urls_safe env op req up c :
  In c (snd (run (V2.handler env op req) up)) -> allChars urlChar (call_url c) = true.
Proof.
  destruct (keyMissing env) eqn:K.
  - rewrite (@v2_keyless_handler env op req up K). simpl. contradiction.
  - destruct env as [key|]; [|discriminate K].
    simpl in K. apply negb_false_iff in K.
    unfold run. destruct op; as_plan; apply (@v2_plan_url_safe key _ up c K);
      unfold usagePlan, getByIdPlan, searchPlan, nlsPlan, plainPlan,
             V2.sanitized, V2.encoded, stringOf, andThen, planShape;
      rewrite ?http_usageQuery_text;
      repeat match goal with
             | |- context [usageText ?q] => destruct (usageText q) eqn:?
             | |- context [if ?x then _ else _] => destruct x
             | |- context [toString ?v] => destruct (toString v)
             end;
      cbv beta iota;
      try exact I; try reflexivity; try (eexists; reflexivity);
      unfold API_BASE_URL, V2.sanitizeId; url_pieces.
Qed.

(** C4, amended. In the second Express shell every route reading one of
    the parameters [uniqueId], [channelId], [contentId] issues, when the
    parameter has a text, one call whose URL is a fixed path followed by
    that text written through [sanitizeId] for [uniqueId] and through
    [encodeURIComponent] alone for [channelId] and [contentId]; a truthy
    parameter that has no text is answered 500 with the type error of its
    conversion, and nothing is called.  The written text holds only
    unreserved characters and percent escapes, and every URL that shell
    calls is made of fixed text and encoded parameters only. *)
Theorem second_shell_encodes_parameters :
  (forall (op : Operation) (p : string),
      Mcp.required op = [p] ->
      In p ["uniqueId"; "channelId"; "contentId"] ->
      exists path,
        forall (key : string) (req : Request) (up : Upstream) (v : Json),
          nonEmpty key = true ->
          lookup p (query req) = Some v ->
          truthy (Some v) = true ->
          (forall text,
              toString (Some v) = Some text ->
              snd (run (V2.handler (Some key) op req) up)
              = [requestOptions key (path ++ "?" ++ p ++ "=" ++ identifierText p text)
                                GET None])
          /\ (toString (Some v) = None ->
              run (V2.handler (Some key) op req) up
              = (Ok {| status := 500;
                       payload :=
                         JObj [("success", JBool false);
                               ("error", JStr "Cannot convert object to primitive value")] |},
                 [])))
  /\ (forall (text : string),
        identifierText "uniqueId" text = V2.sanitizeId text
        /\ identifierText "channelId" text = encodeURIComponent text
        /\ identifierText "contentId" text = encodeURIComponent text)
  /\ (forall (p : string) (text : string),
        allChars encodedChar (identifierText p text) = true)
  /\ (forall env op req up c,
        In c (snd (run (V2.handler env op req) up)) ->
        allChars urlChar (call_url c) = true).
Proof.
  split; [|split; [intro text; repeat split
                  |split; [exact identifierText_encoded | exact v2_urls_safe]]].
  intros op p R I.
  destruct op; simpl in R; try discriminate R; injection R as <-;
    try (simpl in I; repeat (destruct I as [I|I]; try discriminate I); contradiction);
    eexists; intros key req up v K L T;
    (split; [intros text X | intro X]); unfold run; as_plan;
    unfold getByIdPlan, V2.sanitized, V2.encoded, stringOf, andThen;
    rewrite L, T, X; cbv beta iota;
    first [ rewrite v2_call_log by exact K; reflexivity | reflexivity ].
Qed.

(** The theorem at a profile request written with a leading at sign. *)
Lemma second_shell_encodes_parameters_witness :
  exists path,
    snd (run (V2.handler (Some "k") tiktok_get_profile
                {| query := [("uniqueId", JStr "@nasa")]; body := [] |}) quotaExceeded)
    = [requestOptions "k"
         (path ++ "?" ++ "uniqueId" ++ "=" ++ identifierText "uniqueId" "@nasa")
         GET None].
Proof.
  destruct (proj1 second_shell_encodes_parameters tiktok_get_profile "uniqueId" eq_refl
              (or_introl eq_refl)) as [path H].
  exists path.
  exact (proj1 (H "k" {| query := [("uniqueId", JStr "@nasa")]; body := [] |} quotaExceeded
                  (JStr "@nasa") eq_refl eq_refl eq_refl) "@nasa" eq_refl).
Defined.

End EncodingFacts.

(* ================================================================== *)
(** ** Facts about the tool shell *)
(* ================================================================== *)

Module ToolFacts.
Import Js Net Uri Client Mcp HttpFacts Terms MoreTerms.

Lemma caseOf_toolName (op : Operation) : caseOf (toolName op) = Some op.
Proof. destruct op; reflexivity. Qed.

Lemma cases_complete (op : Operation) : In op cases.
Proof. destruct op; simpl; tauto. Qed.

(** No case label matches exactly when the name is not in the tool table. *)
Lemma caseOf_none_iff (name : string) :
  caseOf name = None <-> forall op, toolName op <> name.
Proof.
  split.
  - intros H op E.
    pose proof (find_none _ _ H op (cases_complete op)) as F.
    simpl in F. rewrite <- E, String.eqb_refl in F. discriminate F.
  - intro H. unfold caseOf.
    destruct (find (fun op => String.eqb name (toolName op)) cases) as [op|] eqn:F;
      [|reflexivity].
    apply find_some in F. destruct F as [_ F].
    apply String.eqb_eq in F. symmetry in F. contradiction (H op F).
Qed.

(** Every case is one request of the expected shape, unless a value it
    turns into text has none: then it throws before any request. *)
Lemma tool_case_request key op args :
  if converts op args
  then exists endpoint method body,
         requestShape method body
         /\ forall up log,
              toolCase key op args up log
              = Client.makeApiRequest key endpoint method body up log
  else forall up log,
         toolCase key op args up log = (Throw (JsError conversionError), log).
Proof.
  destruct op; cbv beta iota zeta delta [toolCase converts checked];
    rewrite ?tool_usageQuery_text; unfold stringOf;
    repeat match goal with
           | |- context [usageText ?q] => destruct (usageText q)
           | |- context [toString ?v] => destruct (toString v)
           end;
    first [ intros up log; reflexivity
          | do 3 eexists; (split; [|intros up log; reflexivity]); exact I ].
Qed.

Lemma handleToolCall_known key op args up log :
  handleToolCall key (toolName op) args up log
  = match toolCase key op args up log with
    | (Ok result, l) => (Ok (JSON_stringify_pretty result), l)
    | (Throw e, l) => (Ok (JSON_stringify (failure (errorText e))), l)
    end.
Proof.
  unfold handleToolCall. rewrite caseOf_toolName.
  unfold tryCatch, bind.
  destruct (toolCase key op args up log) as [[result|e] l]; reflexivity.
Qed.

Lemma handleToolCall_unknown key name args up log :
  caseOf name = None ->
  handleToolCall key name args up log
  = (Ok (JSON_stringify (failure ("Unknown tool: " ++ name))), log).
Proof.
  intro H. unfold handleToolCall. rewrite H. reflexivity.
Qed.

(** A known tool returns the text made from the reply to its one call, or
    the text of the type error when a value it turns into text has none. *)
Lemma tool_run key op args :
  if converts op args
  then exists endpoint method body,
         requestShape method body
         /\ forall up,
              run (handleToolCall key (toolName op) args) up
              = (Ok (toolText (up (requestOptions key endpoint method body))),
                 [requestOptions key endpoint method body])
  else forall up,
         run (handleToolCall key (toolName op) args) up
         = (Ok (JSON_stringify (failure conversionError)), []).
Proof.
  pose proof (tool_case_request key op args) as C.
  destruct (converts op args).
  - destruct C as [endpoint [method [body [S E]]]].
    exists endpoint, method, body. split; [exact S|].
    intro up. unfold run. rewrite handleToolCall_known, E, client_reply.
    unfold toolText. destruct (clientResult _ _) as [data|e]; reflexivity.
  - intro up. unfold run. rewrite handleToolCall_known, C. reflexivity.
Qed.

(** A known tool reaches the upstream whenever its arguments can be
    written: nothing else is checked first. *)
Lemma tool_call_always_issued key op args up :
  converts op args = true ->
  length (snd (run (handleToolCall key (toolName op) args) up)) = 1%nat.
Proof.
  intro V. pose proof (tool_run key op args) as R. rewrite V in R.
  destruct R as [e [m [b [_ R]]]]. rewrite R. reflexivity.
Qed.

(** The text of a failure, character by character. *)
Lemma failure_text (msg : string) :
  JSON_stringify (JObj [("success", JBool false); ("error", JStr msg)])
  = "{" ++ quoteJSON "success" ++ ":false," ++ quoteJSON "error" ++ ":"
    ++ quoteJSON msg ++ "}".
Proof.
  unfold JSON_stringify. cbv -[quoteJSON String.append].
  rewrite !SanitizerFacts.append_assoc. reflexivity.
Qed.

(** C10. [handleToolCall] returns a string for every name, argument record
    and upstream behaviour, and never throws.  The string is the indented
    rendering of the upstream result, or the compact rendering of the
    object with the two fields [success], false, and [error], the message
    of whatever was thrown inside: for a name outside the tool table that
    message names the unknown tool and nothing is called. *)
Theorem handleToolCall_total :
  forall (key name : string) (args : list (string * Json)) (up : Upstream)
         (log : list OutCall),
    (exists s calls,
        handleToolCall key name args up log = (Ok s, calls)
        /\ ((exists result, s = JSON_stringify_pretty result)
            \/ (exists msg,
                   s = JSON_stringify (JObj [("success", JBool false);
                                             ("error", JStr msg)]))))
    /\ ((forall op, toolName op <> name) ->
        handleToolCall key name args up log
        = (Ok (JSON_stringify (JObj [("success", JBool false);
                                     ("error", JStr ("Unknown tool: " ++ name))])),
           log))
    /\ (forall op e l,
          toolName op = name ->
          toolCase key op args up log = (Throw e, l) ->
          handleToolCall key name args up log
          = (Ok (JSON_stringify (JObj [("success", JBool false);
                                       ("error", JStr (errorText e))])),
             l))
    /\ (forall op result l,
          toolName op = name ->
          toolCase key op args up log = (Ok result, l) ->
          handleToolCall key name args up log = (Ok (JSON_stringify_pretty result), l))
    /\ (forall msg,
          JSON_stringify (JObj [("success", JBool false); ("error", JStr msg)])
          = "{" ++ quoteJSON "success" ++ ":false," ++ quoteJSON "error" ++ ":"
            ++ quoteJSON msg ++ "}").
Proof.
  intros key name args up log.
  split; [|split; [|split; [|split; [|exact failure_text]]]].
  - destruct (caseOf name) as [op|] eqn:C.
    + assert (N : toolName op = name).
      { unfold caseOf in C. apply find_some in C. destruct C as [_ C].
        apply String.eqb_eq in C. symmetry. exact C. }
      subst name. rewrite handleToolCall_known.
      destruct (toolCase key op args up log) as [[result|e] l].
      * do 2 eexists. split; [reflexivity|]. left. eexists. reflexivity.
      * do 2 eexists. split; [reflexivity|]. right. eexists. reflexivity.
    + rewrite handleToolCall_unknown by exact C.
      do 2 eexists. split; [reflexivity|]. right. eexists. reflexivity.
  - intro H. apply handleToolCall_unknown. apply caseOf_none_iff. exact H.
  - intros op e l <- T. rewrite handleToolCall_known, T. reflexivity.
  - intros op result l <- T. rewrite handleToolCall_known, T. reflexivity.
Qed.

(** The theorem at a name outside the tool table. *)
Lemma handleToolCall_total_witness :
  handleToolCall "k" "nope" [] quotaExceeded []
  = (Ok (JSON_stringify (JObj [("success", JBool false);
                               ("error", JStr "Unknown tool: nope")])), []).
Proof.
  apply (proj1 (proj2 (handleToolCall_total "k" "nope" [] quotaExceeded []))).
  intro op. destruct op; discriminate.
Defined.

(** The text returned for an unknown tool, character by character. *)
Example unknown_tool_text :
  forall key args up,
    run (handleToolCall key "nope" args) up
    = (Ok ("{" ++ quoteJSON "success" ++ ":false," ++ quoteJSON "error" ++ ":"
           ++ quoteJSON "Unknown tool: nope" ++ "}"), []).
Proof. intros. reflexivity. Qed.

(** What the catch clause makes of the failures of a call. *)
Example network_failure_text :
  forall key args,
    fst (run (handleToolCall key "youtube_get_topics" args)
             (fun _ => NetworkFailure "fetch failed"))
    = Ok (JSON_stringify (JObj [("success", JBool false); ("error", JStr "fetch failed")])).
Proof. intros. reflexivity. Qed.

Example null_body_text :
  forall key args,
    fst (run (handleToolCall key "youtube_get_topics" args)
             (fun _ => Responded 200 (Parsed JNull)))
    = Ok (JSON_stringify
            (JObj [("success", JBool false);
                   ("error", JStr "Cannot read properties of null (reading 'success')")])).
Proof. intros. reflexivity. Qed.

(** An argument that has no text: nothing is called. *)
Example no_text_argument :
  forall key up,
    run (handleToolCall key "instagram_get_profile" [("uniqueId", noText)]) up
    = (Ok (JSON_stringify
             (JObj [("success", JBool false);
                    ("error", JStr "Cannot convert object to primitive value")])), []).
Proof. intros. reflexivity. Qed.

(** C5, at the failing input. The tool table requires [uniqueId] for the
    profile tool, yet a call without arguments is sent upstream with the
    text of the undefined value in its URL; both Express shells reject the
    same omission with status 400 and call nothing. *)
Theorem tool_shell_skips_required_check :
  Mcp.required instagram_get_profile = ["uniqueId"]
  /\ (forall (key : string) (up : Upstream),
        snd (run (handleToolCall key "instagram_get_profile" []) up)
        = [requestOptions key "/instagram/profile?uniqueId=undefined" GET None])
  /\ (forall (key : string) (up : Upstream),
        run (V1.handler key instagram_get_profile
                        {| Http.query := []; Http.body := [] |}) up
        = (Ok (Http.badRequest "uniqueId is required"), []))
  /\ (forall (env : option string) (up : Upstream),
        run (V2.handler env instagram_get_profile
                        {| Http.query := []; Http.body := [] |}) up
        = (Ok (Http.badRequest "uniqueId is required"), [])).
Proof.
  split; [reflexivity|]. split; [|split; intros; reflexivity].
  intros key up. unfold run.
  pose proof (@handleToolCall_known key instagram_get_profile [] up []) as H.
  simpl toolName in H. rewrite H.
  change (toolCase key instagram_get_profile [] up [])
    with (Client.makeApiRequest key "/instagram/profile?uniqueId=undefined" GET None up []).
  pose proof (@v1_request_log key "/instagram/profile?uniqueId=undefined" GET None up [])
    as L.
  destruct (Client.makeApiRequest key "/instagram/profile?uniqueId=undefined" GET None up [])
    as [[result|e] l]; simpl in L; subst l; reflexivity.
Qed.

End ToolFacts.

(* ================================================================== *)
(** ** Search bodies *)
(* ================================================================== *)

Module SearchFacts.
Import Js Net Uri Client Http RouteFacts HttpFacts EncodingFacts Terms.

Lemma searchBody_forwarded (b : list (string * Json)) :
  objectOf (searchBody b) = forwarded b.
Proof.
  unfold searchBody, forwarded.
  destruct (lookup "filters" b), (lookup "pageSize" b), (lookup "offset" b),
    (lookup "desc" b), (lookup "sortBy" b) as [s|];
    try destruct (truthy (Some s)); reflexivity.
Qed.

Lemma forwarded_fields (b : list (string * Json)) :
  lookup "filters" (forwarded b) = lookup "filters" b
  /\ lookup "pageSize" (forwarded b) = Some (givenOr (lookup "pageSize" b) (JNum 20))
  /\ lookup "offset" (forwarded b) = Some (givenOr (lookup "offset" b) (JNum 0))
  /\ lookup "desc" (forwarded b) = Some (givenOr (lookup "desc" b) (JBool true))
  /\ lookup "sortBy" (forwarded b)
     = if truthy (lookup "sortBy" b) then lookup "sortBy" b else None.
Proof.
  unfold forwarded.
  destruct (lookup "filters" b), (lookup "sortBy" b) as [s|];
    try destruct (truthy (Some s)); repeat split; reflexivity.
Qed.

(** The call a search route issues once [filters] is truthy. *)
Lemma v1_search_call key op req up :
  In op searches ->
  truthy (lookup "filters" (body req)) = true ->
  exists path,
    snd (run (V1.handler key op req) up)
    = [requestOptions key path POST (Some (JObj (forwarded (body req))))].
Proof.
  intros I T. unfold run.
  destruct I as [<-|[<-|[<-|[]]]]; as_plan; unfold searchPlan; rewrite T;
    rewrite v1_call_log, searchBody_forwarded; eexists; reflexivity.
Qed.

Lemma v2_search_call key op req up :
  nonEmpty key = true ->
  In op searches ->
  truthy (lookup "filters" (body req)) = true ->
  exists path,
    snd (run (V2.handler (Some key) op req) up)
    = [requestOptions key path POST (Some (JObj (forwarded (body req))))].
Proof.
  intros K I T. unfold run.
  destruct I as [<-|[<-|[<-|[]]]]; as_plan; unfold searchPlan; rewrite T;
    rewrite v2_call_log by exact K; rewrite searchBody_forwarded; eexists; reflexivity.
Qed.

(** A search whose [sortBy] is present and empty goes upstream without
    [sortBy]. *)
Lemma empty_sortBy_is_dropped :
  lookup "sortBy" emptySortBy = Some (JStr "")
  /\ lookup "sortBy" (objectOf (searchBody emptySortBy)) = None
  /\ (forall (key : string) (up : Upstream),
        snd (run (V1.handler key instagram_search {| query := []; body := emptySortBy |}) up)
        = [requestOptions key "/instagram/search" POST
             (Some (JObj [("filters", JArr []); ("pageSize", JNum 20);
                          ("offset", JNum 0); ("desc", JBool true)]))]).
Proof.
  split; [reflexivity|]. split; [reflexivity|].
  intros key up. unfold run. as_plan.
  change (searchPlan "/instagram/search" {| query := []; body := emptySortBy |})
    with (Call "/instagram/search" POST
            (Some (JObj [("filters", JArr []); ("pageSize", JNum 20);
                         ("offset", JNum 0); ("desc", JBool true)]))).
  apply v1_call_log.
Qed.

(** C6, amended. For every search call through the Express shells, the
    body forwarded upstream carries [filters] as given, [pageSize],
    [offset] and [desc] with their given value when the field is present,
    falsy or not, and 20, 0 and true when it is absent, and [sortBy] with
    its given value when that value is truthy: [sortBy] is left out exactly
    when it is absent or falsy. *)
Theorem search_body_defaults :
  forall (b : list (string * Json)),
    let out := objectOf (searchBody b) in
    lookup "filters" out = lookup "filters" b
    /\ lookup "pageSize" out = Some (givenOr (lookup "pageSize" b) (JNum 20))
    /\ lookup "offset" out = Some (givenOr (lookup "offset" b) (JNum 0))
    /\ lookup "desc" out = Some (givenOr (lookup "desc" b) (JBool true))
    /\ (lookup "sortBy" out = None <-> truthy (lookup "sortBy" b) = false)
    /\ (truthy (lookup "sortBy" b) = true -> lookup "sortBy" out = lookup "sortBy" b)
    /\ (forall key op query up,
          In op searches ->
          truthy (lookup "filters" b) = true ->
          exists path,
            snd (run (V1.handler key op {| query := query; body := b |}) up)
            = [requestOptions key path POST (Some (JObj out))])
    /\ (forall key op query up,
          nonEmpty key = true ->
          In op searches ->
          truthy (lookup "filters" b) = true ->
          exists path,
            snd (run (V2.handler (Some key) op {| query := query; body := b |}) up)
            = [requestOptions key path POST (Some (JObj out))]).
Proof.
  intros b out. unfold out. rewrite searchBody_forwarded.
  destruct (forwarded_fields b) as [F [P [O [D S]]]].
  repeat split; try assumption.
  - rewrite S. destruct (truthy (lookup "sortBy" b)) eqn:T; [|reflexivity].
    destruct (lookup "sortBy" b); [intro H; discriminate H | discriminate T].
  - intro T. rewrite S, T. reflexivity.
  - intro T. rewrite S, T. reflexivity.
  - intros key op query up I T. exact (@v1_search_call key op {| query := query; body := b |} up I T).
  - intros key op query up K I T. exact (@v2_search_call key op {| query := query; body := b |} up K I T).
Qed.

(** The theorem at a request giving zero, zero and false. *)
Lemma search_body_defaults_witness :
  let b := [("filters", JArr [JNum 1]); ("pageSize", JNum 0); ("offset", JNum 0);
            ("desc", JBool false)] in
  exists path,
    snd (run (V1.handler "k" tiktok_search {| query := []; body := b |})
             (fun _ => NetworkFailure "down"))
    = [requestOptions "k" path POST (Some (JObj (objectOf (searchBody b))))].
Proof.
  intro b.
  apply (proj1 (proj2 (proj2 (proj2 (proj2 (proj2 (proj2 (search_body_defaults b)))))))).
  - simpl. right. right. left. reflexivity.
  - reflexivity.
Defined.

(** The tool shell builds its body with [||]: a page size of zero becomes
    20, and [desc] is left out when absent. *)
Example tool_search_body :
  objectOf (Mcp.searchBody [("filters", JArr []); ("pageSize", JNum 0)])
  = [("filters", JArr []); ("pageSize", JNum 20); ("offset", JNum 0)].
Proof. reflexivity. Qed.

(** *** The number of filters *)

(** Eleven filters go upstream as given, from the Express shell and from
    the tool shell. *)
Lemma eleven_filters_forwarded :
  length elevenFilters = 11%nat
  /\ (forall (key : string) (up : Upstream),
        snd (run (V1.handler key instagram_search elevenRequest) up)
        = [requestOptions key "/instagram/search" POST
             (Some (JObj [("filters", JArr elevenFilters); ("pageSize", JNum 20);
                          ("offset", JNum 0); ("desc", JBool true)]))])
  /\ (forall (key : string) (up : Upstream),
        snd (run (Mcp.handleToolCall key "instagram_search"
                    [("filters", JArr elevenFilters)]) up)
        = [requestOptions key "/instagram/search" POST
             (Some (JObj [("filters", JArr elevenFilters); ("pageSize", JNum 20);
                          ("offset", JNum 0)]))]).
Proof.
  split; [reflexivity|]. split; intros key up; unfold run.
  - as_plan.
    change (searchPlan "/instagram/search" elevenRequest)
      with (Call "/instagram/search" POST
              (Some (JObj [("filters", JArr elevenFilters); ("pageSize", JNum 20);
                           ("offset", JNum 0); ("desc", JBool true)]))).
    apply v1_call_log.
  - pose proof (@ToolFacts.handleToolCall_known key instagram_search
                  [("filters", JArr elevenFilters)] up []) as H.
    simpl Mcp.toolName in H. rewrite H. clear H.
    change (Mcp.toolCase key instagram_search [("filters", JArr elevenFilters)] up [])
      with (Client.makeApiRequest key "/instagram/search" POST
              (Some (JObj [("filters", JArr elevenFilters); ("pageSize", JNum 20);
                           ("offset", JNum 0)])) up []).
    match goal with
    | |- context [Client.makeApiRequest ?k ?e ?m ?b ?u ?l] =>
        pose proof (@v1_request_log k e m b u l) as L;
        destruct (Client.makeApiRequest k e m b u l) as [[result|x] l']
    end; simpl in L; subst l'; reflexivity.
Qed.

(** C9, amended. No entry point bounds the number of filters: whatever the
    length of the [filters] array, a search goes upstream in one call
    whose body carries that array as given.  The ceiling of ten is stated
    in the description of the search tool only. *)
Theorem filters_forwarded_unbounded :
  forall (fs : list Json) (key : string) (op : Operation) (up : Upstream),
    In op searches ->
    (forall req,
        lookup "filters" (body req) = Some (JArr fs) ->
        exists path rest,
          snd (run (V1.handler key op req) up)
          = [requestOptions key path POST (Some (JObj (("filters", JArr fs) :: rest)))])
    /\ (forall req,
          nonEmpty key = true ->
          lookup "filters" (body req) = Some (JArr fs) ->
          exists path rest,
            snd (run (V2.handler (Some key) op req) up)
            = [requestOptions key path POST (Some (JObj (("filters", JArr fs) :: rest)))])
    /\ (forall args,
          lookup "filters" args = Some (JArr fs) ->
          exists path rest,
            snd (run (Mcp.handleToolCall key (Mcp.toolName op) args) up)
            = [requestOptions key path POST (Some (JObj (("filters", JArr fs) :: rest)))]).
Proof.
  intros fs key op up I. split; [|split].
  - intros req L.
    assert (T : truthy (lookup "filters" (body req)) = true) by (rewrite L; reflexivity).
    destruct (@v1_search_call key op req up I T) as [path E].
    rewrite E. unfold forwarded. rewrite L. do 2 eexists. reflexivity.
  - intros req K L.
    assert (T : truthy (lookup "filters" (body req)) = true) by (rewrite L; reflexivity).
    destruct (@v2_search_call key op req up K I T) as [path E].
    rewrite E. unfold forwarded. rewrite L. do 2 eexists. reflexivity.
  - intros args L. unfold run. rewrite ToolFacts.handleToolCall_known.
    assert (B : exists rest, objectOf (Mcp.searchBody args) = ("filters", JArr fs) :: rest).
    { unfold Mcp.searchBody. rewrite L.
      destruct (truthy (lookup "sortBy" args)), (lookup "desc" args),
        (orElse (lookup "pageSize" args) (Some (JNum 20))),
        (orElse (lookup "offset" args) (Some (JNum 0))),
        (lookup "sortBy" args); eexists; reflexivity. }
    destruct B as [rest B].
    destruct I as [<-|[<-|[<-|[]]]]; cbn beta iota zeta delta [Mcp.toolCase]; rewrite B;
      match goal with
      | |- context [Client.makeApiRequest ?k ?e ?m ?b ?u ?l] =>
          pose proof (@v1_request_log k e m b u l) as R;
          destruct (Client.makeApiRequest k e m b u l) as [[result|x] l']
      end; simpl in R; subst l'; do 2 eexists; reflexivity.
Qed.

(** The theorem at the eleven filters. *)
Lemma filters_forwarded_unbounded_witness :
  exists path rest,
    snd (run (V1.handler "k" youtube_search elevenRequest) (fun _ => NetworkFailure "down"))
    = [requestOptions "k" path POST
         (Some (JObj (("filters", JArr elevenFilters) :: rest)))].
Proof.
  apply (proj1 (@filters_forwarded_unbounded elevenFilters "k" youtube_search
                  (fun _ => NetworkFailure "down")
                  (or_intror (or_introl eq_refl)))).
  reflexivity.
Defined.

End SearchFacts.

(* ================================================================== *)
(** ** The query string of the usage operation *)
(* ================================================================== *)

Module UsageFacts.
Import Js Net Uri Client Http RouteFacts HttpFacts SanitizerFacts EncodingFacts Terms
       MoreTerms.

Lemma kept_empty_iff (k : string) (args : list (string * Json)) :
  kept k args = Some [] <-> truthy (lookup k args) = false.
Proof.
  unfold kept. destruct (truthy (lookup k args)), (toString (lookup k args));
    split; intro H; try reflexivity; discriminate H.
Qed.

Lemma kept_cases (k : string) (args : list (string * Json)) (pairs : URLSearchParams) :
  kept k args = Some pairs ->
  (truthy (lookup k args) = false /\ pairs = [])
  \/ (truthy (lookup k args) = true
      /\ exists text, toString (lookup k args) = Some text /\ pairs = [(k, text)]).
Proof.
  unfold kept. destruct (truthy (lookup k args)).
  - destruct (toString (lookup k args)) as [text|]; intro H; [|discriminate H].
    injection H as <-. right. split; [reflexivity|]. exists text. split; reflexivity.
  - intro H. injection H as <-. left. split; reflexivity.
Qed.

(** The usage call of each shell, given its query string. *)
Lemma tool_usage_call key args text up :
  usageText args = Some text ->
  snd (run (Mcp.handleToolCall key "get_api_usage" args) up)
  = [requestOptions key (usageEndpoint text) GET None].
Proof.
  intro T. unfold run.
  pose proof (@ToolFacts.handleToolCall_known key get_api_usage args up []) as H.
  simpl Mcp.toolName in H. rewrite H. clear H.
  cbv beta iota zeta delta [Mcp.toolCase]. unfold bind, lift.
  rewrite tool_usageQuery_text, T, client_reply.
  destruct (clientResult _ _); reflexivity.
Qed.

Lemma first_usage_call key req text up :
  usageText (query req) = Some text ->
  snd (run (V1.handler key get_api_usage req) up)
  = [requestOptions key (usageEndpoint text) GET None].
Proof.
  intro T. unfold run. as_plan. unfold usagePlan.
  rewrite http_usageQuery_text, T, v1_call_log. reflexivity.
Qed.

Lemma second_usage_call key req text up :
  nonEmpty key = true ->
  usageText (query req) = Some text ->
  snd (run (V2.handler (Some key) get_api_usage req) up)
  = [requestOptions key (usageEndpoint text) GET None].
Proof.
  intros K T. unfold run. as_plan. unfold usagePlan.
  rewrite http_usageQuery_text, T, v2_call_log by exact K. reflexivity.
Qed.

(** A usage call with a value that has no text: nothing is called. *)
Lemma tool_usage_failure key args up :
  usageText args = None ->
  run (Mcp.handleToolCall key "get_api_usage" args) up
  = (Ok (JSON_stringify (JObj [("success", JBool false); ("error", JStr conversionError)])),
     []).
Proof.
  intro T. unfold run.
  pose proof (@ToolFacts.handleToolCall_known key get_api_usage args up []) as H.
  simpl Mcp.toolName in H. rewrite H. clear H.
  cbv beta iota zeta delta [Mcp.toolCase]. unfold bind, lift.
  rewrite tool_usageQuery_text, T. reflexivity.
Qed.

Lemma first_usage_failure key req up :
  usageText (query req) = None ->
  run (V1.handler key get_api_usage req) up = (Ok conversionFailure, []).
Proof.
  intro T. unfold run. as_plan. unfold usagePlan.
  rewrite http_usageQuery_text, T. reflexivity.
Qed.

Lemma second_usage_failure env req up :
  usageText (query req) = None ->
  run (V2.handler env get_api_usage req) up = (Ok conversionFailure, []).
Proof.
  intro T. unfold run. as_plan. unfold usagePlan.
  rewrite http_usageQuery_text, T. reflexivity.
Qed.

(** A usage call whose [start] is the number zero goes upstream without
    [start]; so does a request whose [start] is the empty string. *)
Lemma zero_start_is_dropped :
  lookup "start" zeroStart = Some (JNum 0)
  /\ Mcp.usageQuery zeroStart = Ok EmptyString
  /\ (forall (key : string) (up : Upstream),
        snd (run (Mcp.handleToolCall key "get_api_usage" zeroStart) up)
        = [requestOptions key "/usage" GET None])
  /\ Http.usageQuery [("start", JStr EmptyString)] = Ok EmptyString
  /\ (forall (key : string) (up : Upstream),
        snd (run (V1.handler key get_api_usage
                    {| query := [("start", JStr EmptyString)]; body := [] |}) up)
        = [requestOptions key "/usage" GET None]).
Proof.
  split; [reflexivity|]. split; [reflexivity|].
  split; [|split; [reflexivity|]].
  - intros key up. exact (@tool_usage_call key zeroStart EmptyString up eq_refl).
  - intros key up.
    exact (@first_usage_call key {| query := [("start", JStr EmptyString)]; body := [] |}
             EmptyString up eq_refl).
Qed.

(** C7, amended. The usage operation, in the tool shell and in both
    Express shells, writes [start] and then [end] into the query string,
    each exactly when its value is truthy: a key is left out when it is
    absent and also when its value is falsy (zero, false, null, the empty
    string).  The kept values are written as their text, form-encoded, and
    the one call goes to the usage endpoint followed by that query string.
    When a truthy value has no text, the conversion throws and nothing is
    called. *)
Theorem usage_query_keeps_truthy :
  forall (args : list (string * Json)),
    (forall k, kept k args = Some [] <-> truthy (lookup k args) = false)
    /\ (forall k text,
          truthy (lookup k args) = true ->
          toString (lookup k args) = Some text ->
          kept k args = Some [(k, text)])
    /\ (forall k,
          truthy (lookup k args) = true ->
          toString (lookup k args) = None ->
          kept k args = None)
    /\ (forall (s e : URLSearchParams),
          kept "start" args = Some s ->
          kept "end" args = Some e ->
          let queryString := paramsToString (s ++ e)%list in
          let endpoint := "/usage" ++ (if nonEmpty queryString then "?" ++ queryString
                                       else "") in
          allChars formChar queryString = true
          /\ (queryString = EmptyString
              <-> truthy (lookup "start" args) = false
                  /\ truthy (lookup "end" args) = false)
          /\ (forall (key : string) (up : Upstream) (b : list (string * Json)),
                snd (run (Mcp.handleToolCall key "get_api_usage" args) up)
                = [requestOptions key endpoint GET None]
                /\ snd (run (V1.handler key get_api_usage {| query := args; body := b |})
                            up)
                   = [requestOptions key endpoint GET None]
                /\ (nonEmpty key = true ->
                    snd (run (V2.handler (Some key) get_api_usage
                                {| query := args; body := b |}) up)
                    = [requestOptions key endpoint GET None])))
    /\ (kept "start" args = None \/ kept "end" args = None ->
        forall (key : string) (up : Upstream) (b : list (string * Json)),
          run (Mcp.handleToolCall key "get_api_usage" args) up
          = (Ok (JSON_stringify
                   (JObj [("success", JBool false);
                          ("error", JStr "Cannot convert object to primitive value")])),
             [])
          /\ run (V1.handler key get_api_usage {| query := args; body := b |}) up
             = (Ok {| status := 500;
                      payload :=
                        JObj [("success", JBool false);
                              ("error", JStr "Cannot convert object to primitive value")] |},
                [])
          /\ run (V2.handler (Some key) get_api_usage {| query := args; body := b |}) up
             = (Ok {| status := 500;
                      payload :=
                        JObj [("success", JBool false);
                              ("error", JStr "Cannot convert object to primitive value")] |},
                [])).
Proof.
  intro args.
  split; [intro k; apply kept_empty_iff|].
  split; [intros k text T X; unfold kept; rewrite T, X; reflexivity|].
  split; [intros k T X; unfold kept; rewrite T, X; reflexivity|].
  split.
  - intros s e S E queryString endpoint.
    assert (U : usageText args = Some queryString)
      by (unfold usageText; rewrite S, E; reflexivity).
    split; [apply paramsToString_encoded|]. split.
    + unfold queryString.
      destruct (kept_cases _ _ S) as [[Ts ->]|[Ts [ts [_ ->]]]];
        destruct (kept_cases _ _ E) as [[Te ->]|[Te [te [_ ->]]]];
        rewrite Ts, Te; split; intro H;
        try (split; reflexivity); try reflexivity; try discriminate H;
        destruct H as [H1 H2]; discriminate.
    + intros key up b. split; [|split].
      * apply tool_usage_call, U.
      * apply first_usage_call, U.
      * intro K. apply second_usage_call; [exact K | exact U].
  - intros N key up b.
    assert (U : usageText args = None).
    { unfold usageText. destruct N as [-> | ->]; [reflexivity|].
      destruct (kept "start" args); reflexivity. }
    split; [|split].
    + apply tool_usage_failure, U.
    + apply first_usage_failure, U.
    + apply second_usage_failure, U.
Qed.

(** The theorem at a request to the first shell giving a start time. *)
Lemma usage_query_keeps_truthy_witness :
  snd (run (V1.handler "k" get_api_usage
              {| query := [("start", JStr "1700000000000")]; body := [] |}) quotaExceeded)
  = [requestOptions "k" "/usage?start=1700000000000" GET None].
Proof.
  exact (proj1 (proj2 (proj2 (proj2
           (proj1 (proj2 (proj2 (proj2
              (usage_query_keeps_truthy [("start", JStr "1700000000000")]))))
              [("start", "1700000000000")] [] eq_refl eq_refl))
           "k" quotaExceeded []))).
Defined.

End UsageFacts.

(* ================================================================== *)
(** ** Missing parameters in the Express shells *)
(* ================================================================== *)

Module RequiredFacts.
Import Js Net Uri Client Http RouteFacts HttpFacts Terms.

(** Both Express shells answer 400, naming the parameter, and call
    nothing when the first required parameter of an operation is absent
    from the request. *)
Lemma http_rejects_missing_parameter (op : Operation) (p : string) (others : list string)
    (req : Request) :
  Mcp.required op = p :: others ->
  lookup p (query req) = None ->
  lookup p (body req) = None ->
  (forall key up,
      run (V1.handler key op req) up = (Ok (badRequest (p ++ " is required")), []))
  /\ (forall env up,
        run (V2.handler env op req) up = (Ok (badRequest (p ++ " is required")), [])).
Proof.
  intros R Q B.
  destruct op; simpl in R; try discriminate R; injection R as <- _;
    split; intros; unfold run; as_plan;
    unfold getByIdPlan, searchPlan, nlsPlan; rewrite ?Q, ?B; reflexivity.
Qed.

End RequiredFacts.

(* ================================================================== *)
(** ** Every route and tool, against any upstream *)
(* ================================================================== *)

Module ReplyFacts.
Import Js Net Uri Client Http Terms MoreTerms RouteFacts HttpFacts.

Lemma prefix_app (a b : string) : String.prefix a (a ++ b) = true.
Proof.
  induction a as [|c a IH]; simpl; [destruct b; reflexivity|].
  destruct (ascii_dec c c) as [_|N]; [exact IH | contradiction].
Qed.

Lemma requestOptions_well_formed key endpoint method body :
  requestShape method body ->
  wellFormedCall key (requestOptions key endpoint method body).
Proof.
  intro S. unfold wellFormedCall, requestOptions.
  cbn [call_headers call_url call_method call_body].
  split; [reflexivity|]. split; [apply prefix_app|].
  destruct method, body as [[| | | | |fields]|]; simpl in S; try contradiction.
  - reflexivity.
  - exists fields. reflexivity.
Qed.

End ReplyFacts.

(* ================================================================== *)
(** ** Further properties of the Express shells *)
(* ================================================================== *)

Module ExpressProperties.
Import Js Net Uri Client Http Terms MoreTerms RouteFacts HttpFacts ClassifierFacts
       ReplyFacts.

Lemma firstAnswer_status (reply : Reply) :
  status (firstAnswer reply) = 200 \/ status (firstAnswer reply) = 500.
Proof.
  unfold firstAnswer. destruct (clientResult _ reply); simpl; auto.
Qed.

Lemma clientResult_object mkError status fields :
  clientResult mkError (Responded status (Parsed (JObj fields)))
  = if negb (ok status) || isFalse (lookup "success" fields)
    then Throw (reported mkError status fields)
    else Ok (JObj fields).
Proof. apply classify_object. Qed.

Lemma not_failure_false status fields :
  ~ upstreamFailure status fields ->
  negb (ok status) || isFalse (lookup "success" fields) = false.
Proof.
  intro N. destruct (negb (ok status) || isFalse (lookup "success" fields)) eqn:B;
    [|reflexivity].
  exfalso. apply N. apply failed_iff. exact B.
Qed.

(** Every request to the first shell is answered before any call, or with
    what the shell makes of the reply to its one call. *)
Lemma first_outcome key op req up :
  exists r calls,
    run (V1.handler key op req) up = (Ok r, calls)
    /\ ((calls = [] /\ earlyAnswer r)
        \/ (exists c, calls = [c] /\ r = firstAnswer (up c))).
Proof.
  pose proof (first_handler_cases key op req) as C.
  destruct (beforeCall op req) as [r|] eqn:B.
  - exists r, []. split; [apply C|]. left. split; [reflexivity|].
    apply (beforeCall_cases _ _ B).
  - destruct C as [e [m [b [_ C]]]]. do 2 eexists. split; [apply C|].
    right. eexists. split; reflexivity.
Qed.

Lemma second_outcome key op req up :
  nonEmpty key = true ->
  exists r calls,
    run (V2.handler (Some key) op req) up = (Ok r, calls)
    /\ ((calls = [] /\ earlyAnswer r)
        \/ (exists c, calls = [c] /\ r = secondAnswer (up c))).
Proof.
  intro K. pose proof (@second_handler_cases key op req K) as C.
  destruct (beforeCall op req) as [r|] eqn:B.
  - exists r, []. split; [apply C|]. left. split; [reflexivity|].
    apply (beforeCall_cases _ _ B).
  - destruct C as [e [m [b [_ C]]]]. do 2 eexists. split; [apply C|].
    right. eexists. split; reflexivity.
Qed.

(** X2. Every request to the first shell gets an answer, whatever the
    upstream does: status 400 naming the missing parameter or status 500
    with the type error of a parameter that has no text, both with no
    outbound call, or exactly one outbound call and status 200 or 500.  No
    exception leaves a route. *)
Theorem first_shell_always_answers :
  forall (key : string) (op : Operation) (req : Request) (up : Upstream),
    exists r calls,
      run (V1.handler key op req) up = (Ok r, calls)
      /\ ((calls = [] /\ exists p, r = errorAnswer 400 (p ++ " is required"))
          \/ (calls = []
              /\ r = errorAnswer 500 "Cannot convert object to primitive value")
          \/ (length calls = 1%nat /\ (status r = 200 \/ status r = 500))).
Proof.
  intros key op req up.
  destruct (first_outcome key op req up) as [r [calls [E [[-> [P|P]]|[c [-> ->]]]]]];
    do 2 eexists; (split; [exact E|]).
  - left. split; [reflexivity | exact P].
  - right. left. split; [reflexivity | exact P].
  - right. right. split; [reflexivity | apply firstAnswer_status].
Qed.

(** X3. When the upstream answers a call with a 2xx status and an object
    whose [success] is not [false], both Express shells answer 200 with
    that object as it came, every field kept; the only other outcomes are
    the 400 and the 500 given before any call. *)
Theorem express_passes_success_through :
  forall (key : string) (op : Operation) (req : Request) (status : Z)
         (fields : list (string * Json)),
    ~ upstreamFailure status fields ->
    (exists r calls,
        run (V1.handler key op req) (always status fields) = (Ok r, calls)
        /\ ((calls = [] /\ earlyAnswer r)
            \/ (length calls = 1%nat /\ r = json (JObj fields))))
    /\ (nonEmpty key = true ->
        exists r calls,
          run (V2.handler (Some key) op req) (always status fields) = (Ok r, calls)
          /\ ((calls = [] /\ earlyAnswer r)
              \/ (length calls = 1%nat /\ r = json (JObj fields)))).
Proof.
  intros key op req status fields N.
  pose proof (not_failure_false N) as B.
  split.
  - destruct (first_outcome key op req (always status fields))
      as [r [calls [E [[-> P]|[c [-> ->]]]]]]; do 2 eexists; (split; [exact E|]).
    + left. split; [reflexivity | exact P].
    + right. split; [reflexivity|].
      unfold firstAnswer, always. rewrite clientResult_object, B. reflexivity.
  - intro K.
    destruct (@second_outcome key op req (always status fields) K)
      as [r [calls [E [[-> P]|[c [-> ->]]]]]]; do 2 eexists; (split; [exact E|]).
    + left. split; [reflexivity | exact P].
    + right. split; [reflexivity|].
      unfold secondAnswer, always. rewrite clientResult_object, B. reflexivity.
Qed.

(** The theorem at a profile answered with its data. *)
Lemma express_passes_success_through_witness :
  exists r calls,
    run (V1.handler "k" instagram_get_profile profileRequest) (always 200 profileBody)
    = (Ok r, calls)
    /\ ((calls = [] /\ earlyAnswer r)
        \/ (length calls = 1%nat /\ r = json (JObj profileBody))).
Proof.
  refine (proj1 (@express_passes_success_through "k" instagram_get_profile profileRequest
                   200 profileBody _)).
  unfold upstreamFailure. intros [N|E]; [apply N; lia | discriminate E].
Defined.

(** X4. When the call fails in transport, the network failing or the body
    not being JSON, both Express shells answer 500 with the message of the
    underlying error; in the second shell the status the upstream sent with
    an undecodable body is not carried.  The only other outcomes are the
    400 and the 500 given before any call. *)
Theorem express_transport_failure :
  forall (key : string) (op : Operation) (req : Request) (reply : Reply) (m : string),
    reply = NetworkFailure m \/ (exists s, reply = Responded s (NotJson m)) ->
    (exists r calls,
        run (V1.handler key op req) (fun _ => reply) = (Ok r, calls)
        /\ ((calls = [] /\ earlyAnswer r)
            \/ (length calls = 1%nat /\ r = errorAnswer 500 m)))
    /\ (nonEmpty key = true ->
        exists r calls,
          run (V2.handler (Some key) op req) (fun _ => reply) = (Ok r, calls)
          /\ ((calls = [] /\ earlyAnswer r)
              \/ (length calls = 1%nat /\ r = errorAnswer 500 m))).
Proof.
  intros key op req reply m R.
  assert (A1 : firstAnswer reply = errorAnswer 500 m)
    by (destruct R as [->|[s ->]]; reflexivity).
  assert (A2 : secondAnswer reply = errorAnswer 500 m)
    by (destruct R as [->|[s ->]]; reflexivity).
  split.
  - destruct (first_outcome key op req (fun _ => reply))
      as [r [calls [E [[-> P]|[c [-> ->]]]]]]; do 2 eexists; (split; [exact E|]).
    + left. split; [reflexivity | exact P].
    + right. split; [reflexivity | exact A1].
  - intro K.
    destruct (@second_outcome key op req (fun _ => reply) K)
      as [r [calls [E [[-> P]|[c [-> ->]]]]]]; do 2 eexists; (split; [exact E|]).
    + left. split; [reflexivity | exact P].
    + right. split; [reflexivity | exact A2].
Qed.

(** The theorem at a gateway page sent with status 502. *)
Lemma express_transport_failure_witness :
  exists r calls,
    run (V2.handler (Some "k") youtube_get_topics noArguments) (fun _ => notFoundPage)
    = (Ok r, calls)
    /\ ((calls = [] /\ earlyAnswer r)
        \/ (length calls = 1%nat /\ r = errorAnswer 500 "Unexpected token < in JSON")).
Proof.
  refine (proj2 (@express_transport_failure "k" youtube_get_topics noArguments
                   notFoundPage "Unexpected token < in JSON" _) eq_refl).
  right. exists 502. reflexivity.
Defined.

(** X5. In the second shell, for every route, a decoded answer that the
    classifier counts as a failure comes back under the status the upstream
    sent, with the three-tier message as text; this holds for a 2xx answer
    flagged [success: false] as well, which is answered with that 2xx
    status.  When the chosen message is an object that has no text, the
    answer is 500 with the type error of its conversion.  The only other
    outcomes are the 400 and the 500 given before any call. *)
Theorem second_shell_carries_upstream_status :
  forall (key : string) (op : Operation) (req : Request) (status : Z)
         (fields : list (string * Json)),
    nonEmpty key = true ->
    upstreamFailure status fields ->
    exists r calls,
      run (V2.handler (Some key) op req) (always status fields) = (Ok r, calls)
      /\ ((calls = [] /\ earlyAnswer r)
          \/ (length calls = 1%nat
              /\ (forall text,
                     toString (chosenMessage status fields) = Some text ->
                     r = errorAnswer status text)
              /\ (toString (chosenMessage status fields) = None ->
                  r = errorAnswer 500 "Cannot convert object to primitive value"))).
Proof.
  intros key op req status fields K U.
  apply failed_iff in U.
  destruct (@second_outcome key op req (always status fields) K)
    as [r [calls [E [[-> P]|[c [-> ->]]]]]]; do 2 eexists; (split; [exact E|]).
  - left. split; [reflexivity | exact P].
  - right. split; [reflexivity|].
    unfold secondAnswer, always. rewrite clientResult_object, U. unfold reported.
    split; [intros text T | intro T]; rewrite T; reflexivity.
Qed.

(** The theorem at an answer 200 flagged as a failure. *)
Lemma second_shell_carries_upstream_status_witness :
  fst (run (V2.handler (Some "k") tiktok_get_niches noArguments)
           (always 200 [("success", JBool false); ("message", JStr "no data")]))
  = Ok (errorAnswer 200 "no data").
Proof.
  destruct (@second_shell_carries_upstream_status "k" tiktok_get_niches noArguments 200
              [("success", JBool false); ("message", JStr "no data")] eq_refl
              (or_intror eq_refl)) as [r [calls [E [[C _]|[_ [T _]]]]]].
  - rewrite C in E. discriminate E.
  - rewrite E. rewrite (T "no data" eq_refl). reflexivity.
Defined.

(** X6. Each route of the Express shells tests at most one parameter
    before calling.  When that parameter is absent or falsy (the empty
    string for instance) the answer is 400, naming the parameter, and
    nothing is called.  When it is truthy, and on the routes testing
    nothing, exactly one call goes upstream, provided every value the route
    writes as text has one; otherwise the answer is 500 with the type error
    of the conversion and nothing is called. *)
Theorem express_checks_one_parameter :
  forall (key : string) (op : Operation) (req : Request) (up : Upstream),
    nonEmpty key = true ->
    let passes :=
      match checked op with
      | None => true
      | Some (place, p) => truthy (lookup p (input place req))
      end in
    (forall place p,
        checked op = Some (place, p) ->
        truthy (lookup p (input place req)) = false ->
        run (V1.handler key op req) up = (Ok (errorAnswer 400 (p ++ " is required")), [])
        /\ run (V2.handler (Some key) op req) up
           = (Ok (errorAnswer 400 (p ++ " is required")), []))
    /\ (passes = true ->
        converts op (query req) = true ->
        length (snd (run (V1.handler key op req) up)) = 1%nat
        /\ length (snd (run (V2.handler (Some key) op req) up)) = 1%nat)
    /\ (passes = true ->
        converts op (query req) = false ->
        run (V1.handler key op req) up
        = (Ok (errorAnswer 500 "Cannot convert object to primitive value"), [])
        /\ run (V2.handler (Some key) op req) up
           = (Ok (errorAnswer 500 "Cannot convert object to primitive value"), [])).
Proof.
  intros key op req up K passes.
  pose proof (first_handler_cases key op req) as C1.
  pose proof (@second_handler_cases key op req K) as C2.
  unfold beforeCall in C1, C2. unfold passes. clear passes.
  destruct (checked op) as [[place p]|].
  - split; [|split].
    + intros place' p' E T. injection E as <- <-. rewrite T in C1, C2.
      split; [apply C1 | apply C2].
    + intros T V. rewrite T, V in C1, C2.
      destruct C1 as [e1 [m1 [b1 [_ C1]]]]. destruct C2 as [e2 [m2 [b2 [_ C2]]]].
      rewrite C1, C2. split; reflexivity.
    + intros T V. rewrite T, V in C1, C2. split; [apply C1 | apply C2].
  - split; [|split].
    + intros place' p' E. discriminate E.
    + intros _ V. rewrite V in C1, C2.
      destruct C1 as [e1 [m1 [b1 [_ C1]]]]. destruct C2 as [e2 [m2 [b2 [_ C2]]]].
      rewrite C1, C2. split; reflexivity.
    + intros _ V. rewrite V in C1, C2. split; [apply C1 | apply C2].
Qed.

(** The theorem at a profile request whose identifier is empty. *)
Lemma express_checks_one_parameter_witness :
  run (V1.handler "k" tiktok_get_profile
         {| query := [("uniqueId", JStr EmptyString)]; body := [] |}) quotaExceeded
  = (Ok (errorAnswer 400 "uniqueId is required"), []).
Proof.
  apply (proj1 (proj1 (@express_checks_one_parameter "k" tiktok_get_profile
                  {| query := [("uniqueId", JStr EmptyString)]; body := [] |} quotaExceeded
                  eq_refl) InQuery "uniqueId" eq_refl eq_refl)).
Defined.

(** X7. The first shell and the tool shell serve exactly when the key is
    set to a non-empty string, and then every handler runs with that key;
    an unset or empty variable ends the process with code 1.  The second
    shell serves whatever the variable holds. *)
Theorem serves_iff_key_set :
  forall (env : option string),
    ((exists srv, V1.start env = Running srv) <-> keyMissing env = false)
    /\ ((exists srv, Mcp.start env = Running srv) <-> keyMissing env = false)
    /\ (keyMissing env = true -> V1.start env = Exited 1 /\ Mcp.start env = Exited 1)
    /\ (forall key, env = Some key -> keyMissing env = false ->
          V1.start env = Running (V1.handler key)
          /\ Mcp.start env = Running (Mcp.handleToolCall key))
    /\ (keyMissing env = false <-> exists key, env = Some key /\ key <> EmptyString)
    /\ V2.start env = Running (V2.handler env).
Proof.
  intro env. unfold V1.start, Mcp.start, V2.start.
  destruct env as [[|c key]|]; simpl;
    (split; [split; [intros [srv H]; try discriminate H; reflexivity
                    | intro H; try discriminate H; eexists; reflexivity]|]);
    (split; [split; [intros [srv H]; try discriminate H; reflexivity
                    | intro H; try discriminate H; eexists; reflexivity]|]);
    (split; [intro H; try discriminate H; split; reflexivity|]);
    (split; [intros k E H; try discriminate H; try discriminate E;
             injection E as <-; split; reflexivity|]);
    (split; [|reflexivity]);
    (split;
     [ intro H; first [discriminate H | eexists; split; [reflexivity | discriminate]]
     | intros [k [E N]];
       first [discriminate E | reflexivity
             | injection E as <-; exfalso; apply N; reflexivity] ]).
Qed.

(** The theorem at a key made of one letter. *)
Lemma serves_iff_key_set_witness :
  V1.start (Some "k") = Running (V1.handler "k")
  /\ Mcp.start (Some "k") = Running (Mcp.handleToolCall "k").
Proof.
  apply (proj1 (proj2 (proj2 (proj2 (serves_iff_key_set (Some "k"))))) "k");
    reflexivity.
Defined.

(** X20. Every request to the second shell gets an answer, whatever the
    environment holds and whatever the upstream does, after at most one
    outbound call; a call is made only when the key is set and not empty. *)
Theorem second_shell_always_answers :
  forall (env : option string) (op : Operation) (req : Request) (up : Upstream),
    exists r calls,
      run (V2.handler env op req) up = (Ok r, calls)
      /\ (calls = []
          \/ (length calls = 1%nat
              /\ exists key, env = Some key /\ key <> EmptyString)).
Proof.
  intros env op req up. destruct (keyMissing env) eqn:M.
  - do 2 eexists. split; [apply (@v2_keyless_handler env op req up M)|].
    left. reflexivity.
  - destruct env as [key|]; [|discriminate M].
    simpl in M. apply negb_false_iff in M.
    destruct (@second_outcome key op req up M) as [r [calls [E [[-> _]|[c [-> _]]]]]];
      do 2 eexists; (split; [exact E|]).
    + left. reflexivity.
    + right. split; [reflexivity|]. exists key. split; [reflexivity|].
      intros ->. discriminate M.
Qed.

End ExpressProperties.

(* ================================================================== *)
(** ** Further properties of the tool shell *)
(* ================================================================== *)

Module ToolProperties.
Import Js Net Uri Client Mcp McpServer Terms MoreTerms HttpFacts ClassifierFacts
       ToolFacts ReplyFacts ExpressProperties.

Lemma distinctb_NoDup (l : list string) : distinctb l = true -> NoDup l.
Proof.
  induction l as [|x l IH]; simpl; [constructor|].
  rewrite andb_true_iff, negb_true_iff. intros [N D].
  constructor; [|apply IH, D].
  intro I. assert (E : existsb (String.eqb x) l = true).
  { apply existsb_exists. exists x. split; [exact I | apply String.eqb_refl]. }
  rewrite E in N. discriminate N.
Qed.

Lemma tool_name_cases (n : string) :
  (exists op, toolName op = n) \/ caseOf n = None.
Proof.
  destruct (caseOf n) as [op|] eqn:C; [left | right; reflexivity].
  exists op. unfold caseOf in C. apply find_some in C. destruct C as [_ C].
  apply String.eqb_eq in C. symmetry. exact C.
Qed.

Lemma listed_names : map name tools = map toolName cases.
Proof. reflexivity. Qed.

(** X8. The tool table and the switch of [handleToolCall] name the same
    thirty-one tools, in the same order and each once: every tool the
    server lists has a case of its own, and every name with a case is
    listed.  The required parameters of each entry are those of its
    operation. *)
Theorem tool_table_matches_switch :
  map name listTools = map toolName cases
  /\ NoDup (map name listTools)
  /\ length listTools = 31%nat
  /\ (forall n, In n (map name listTools) <-> caseOf n <> None)
  /\ (forall op, exists t,
        entry (toolName op) = Some t
        /\ name t = toolName op
        /\ requiredNames t = Mcp.required op
        /\ incl (requiredNames t) (properties t)).
Proof.
  split; [reflexivity|]. split; [apply distinctb_NoDup; vm_compute; reflexivity|].
  split; [reflexivity|]. split.
  - intro n. unfold listTools. rewrite listed_names, in_map_iff. split.
    + intros [op [E _]] C. exact (proj1 (caseOf_none_iff n) C op E).
    + intro C. destruct (tool_name_cases n) as [[op E]|N]; [|contradiction].
      exists op. split; [exact E | apply cases_complete].
  - intro op. destruct op; eexists;
      (split; [reflexivity|]); (split; [reflexivity|]); (split; [reflexivity|]);
      intros k I; simpl in *; tauto.
Qed.

(** X9. A tool reads only the properties its entry of the tool table
    declares: two argument records that agree on those properties give the
    same upstream request and the same returned text, whatever else they
    hold. *)
Theorem tool_ignores_undeclared_arguments :
  forall (key : string) (op : Operation) (t : Tool) (args args' : list (string * Json)),
    entry (toolName op) = Some t ->
    agreeOn (properties t) args args' ->
    forall up log,
      handleToolCall key (toolName op) args up log
      = handleToolCall key (toolName op) args' up log.
Proof.
  intros key op t args args' E A up log.
  rewrite !handleToolCall_known.
  assert (T : toolCase key op args up log = toolCase key op args' up log);
    [|rewrite T; reflexivity].
  destruct op; vm_compute in E; injection E as <-;
    cbn beta iota zeta delta [toolCase];
    unfold Mcp.usageQuery, Mcp.searchBody, nlsBody;
    repeat match goal with
           | |- context [lookup ?k args] =>
               rewrite (A k) by (simpl; tauto)
           end;
    reflexivity.
Qed.

(** The theorem at two profile calls differing in an undeclared field. *)
Lemma tool_ignores_undeclared_arguments_witness :
  handleToolCall "k" (toolName instagram_get_profile)
    [("uniqueId", JStr "nasa"); ("debug", JBool true)] quotaExceeded []
  = handleToolCall "k" (toolName instagram_get_profile)
      [("uniqueId", JStr "nasa")] quotaExceeded [].
Proof.
  apply (@tool_ignores_undeclared_arguments "k" instagram_get_profile
           (tool "instagram_get_profile" ["uniqueId"] ["uniqueId"])).
  - reflexivity.
  - intros k [<-|[]]. reflexivity.
Defined.

(** X1. Every call that leaves the proxy, from any route of either
    Express shell or from any tool, goes to the fixed base URL, carries the
    JSON content type and the configured key in its [api-key] header, and is
    a GET without body or a POST whose body is the text of a JSON object. *)
Theorem outbound_calls_well_formed :
  forall (key : string) (up : Upstream) (c : OutCall),
    (forall op req,
        In c (snd (run (V1.handler key op req) up)) -> wellFormedCall key c)
    /\ (forall op req,
          In c (snd (run (V2.handler (Some key) op req) up)) -> wellFormedCall key c)
    /\ (forall n args,
          In c (snd (run (handleToolCall key n args) up)) -> wellFormedCall key c).
Proof.
  intros key up c. split; [|split].
  - intros op req. pose proof (first_handler_cases key op req) as C.
    destruct (beforeCall op req) as [r|].
    + rewrite C. intros [].
    + destruct C as [e [m [b [S E]]]]. rewrite E.
      intros [<-|[]]. apply requestOptions_well_formed, S.
  - intros op req. destruct (nonEmpty key) eqn:K.
    + pose proof (@second_handler_cases key op req K) as C.
      destruct (beforeCall op req) as [r|].
      * rewrite C. intros [].
      * destruct C as [e [m [b [S E]]]]. rewrite E.
        intros [<-|[]]. apply requestOptions_well_formed, S.
    + assert (M : keyMissing (Some key) = true) by (simpl; rewrite K; reflexivity).
      rewrite (@v2_keyless_handler (Some key) op req up M). intros [].
  - intros n args. destruct (tool_name_cases n) as [[op <-]|N].
    + pose proof (tool_run key op args) as R. destruct (converts op args).
      * destruct R as [e [m [b [S E]]]]. rewrite E.
        intros [<-|[]]. apply requestOptions_well_formed, S.
      * rewrite R. intros [].
    + unfold run. rewrite handleToolCall_unknown by exact N. intros [].
Qed.

(** The theorem at the call of a search. *)
Lemma outbound_calls_well_formed_witness :
  wellFormedCall "k"
    (requestOptions "k" "/tiktok/search" POST
       (Some (JObj [("filters", JArr []); ("pageSize", JNum 20); ("offset", JNum 0);
                    ("desc", JBool true)]))).
Proof.
  apply (proj1 (@outbound_calls_well_formed "k" quotaExceeded _) tiktok_search
           {| Http.query := []; Http.body := [("filters", JArr [])] |}).
  left. reflexivity.
Defined.

(** X10. A tool whose arguments can be written and whose call is answered
    with a decoded object returns, after exactly one call, the indented
    text of that object when the classifier accepts it, and otherwise the
    text of the object with [success] false and, as [error], the three-tier
    message, or the type error of its conversion when the chosen message is
    an object that has no text; the status of the upstream is not part of
    the returned text. *)
Theorem tool_text_for_decoded_answer :
  forall (key : string) (op : Operation) (args : list (string * Json)) (status : Z)
         (fields : list (string * Json)),
    converts op args = true ->
    exists calls,
      length calls = 1%nat
      /\ (upstreamFailure status fields ->
          forall text,
            toString (chosenMessage status fields) = Some text ->
            run (handleToolCall key (toolName op) args) (always status fields)
            = (Ok (JSON_stringify (JObj [("success", JBool false); ("error", JStr text)])),
               calls))
      /\ (upstreamFailure status fields ->
          toString (chosenMessage status fields) = None ->
          run (handleToolCall key (toolName op) args) (always status fields)
          = (Ok (JSON_stringify
                   (JObj [("success", JBool false);
                          ("error", JStr "Cannot convert object to primitive value")])),
             calls))
      /\ (~ upstreamFailure status fields ->
          run (handleToolCall key (toolName op) args) (always status fields)
          = (Ok (JSON_stringify_pretty (JObj fields)), calls)).
Proof.
  intros key op args status fields V.
  pose proof (tool_run key op args) as R. rewrite V in R.
  destruct R as [e [m [b [_ E]]]].
  exists [requestOptions key e m b].
  split; [reflexivity|].
  split; [intros U text T | split; [intros U T | intro N]]; rewrite E;
    unfold toolText, always; rewrite clientResult_object.
  - apply failed_iff in U. rewrite U. unfold reported. rewrite T. reflexivity.
  - apply failed_iff in U. rewrite U. unfold reported. rewrite T. reflexivity.
  - rewrite (not_failure_false N). reflexivity.
Qed.

(** The theorem at a quota answer. *)
Lemma tool_text_for_decoded_answer_witness :
  exists calls,
    length calls = 1%nat
    /\ run (handleToolCall "k" (toolName youtube_get_topics) []) (always 429 [])
       = (Ok (JSON_stringify (JObj [("success", JBool false);
                                    ("error", JStr "API Error: 429")])), calls).
Proof.
  destruct (@tool_text_for_decoded_answer "k" youtube_get_topics [] 429 [] eq_refl)
    as [calls [L [F _]]].
  exists calls. split; [exact L|]. apply F; [left; lia | reflexivity].
Defined.

(** X11. A tool whose arguments can be written and whose call fails in
    transport, the network failing or the body not being JSON, returns
    after that one call the text of the object with [success] false and, as
    [error], the message of the underlying error. *)
Theorem tool_text_for_transport_failure :
  forall (key : string) (op : Operation) (args : list (string * Json)) (reply : Reply)
         (m : string),
    converts op args = true ->
    reply = NetworkFailure m \/ (exists s, reply = Responded s (NotJson m)) ->
    exists calls,
      length calls = 1%nat
      /\ run (handleToolCall key (toolName op) args) (fun _ => reply)
         = (Ok (JSON_stringify (JObj [("success", JBool false); ("error", JStr m)])),
            calls).
Proof.
  intros key op args reply m V R.
  pose proof (tool_run key op args) as T. rewrite V in T.
  destruct T as [e [b [c [_ E]]]].
  exists [requestOptions key e b c]. split; [|rewrite E]; [reflexivity|].
  destruct R as [->|[s ->]]; reflexivity.
Qed.

(** The theorem at a network failure. *)
Lemma tool_text_for_transport_failure_witness :
  exists calls,
    length calls = 1%nat
    /\ run (handleToolCall "k" (toolName tiktok_get_niches) [])
           (fun _ => NetworkFailure "fetch failed")
       = (Ok (JSON_stringify (JObj [("success", JBool false);
                                    ("error", JStr "fetch failed")])), calls).
Proof.
  apply (@tool_text_for_transport_failure "k" tiktok_get_niches []
           (NetworkFailure "fetch failed") "fetch failed").
  - reflexivity.
  - left. reflexivity.
Defined.

(** X21. The tool shell issues at most one upstream call, whatever the
    upstream answers, and nothing is retried.  For a name of the tool table
    it issues exactly one when every argument it writes as text has one: no
    other property of the arguments is looked at.  When such an argument
    has no text it issues none and returns the text of the type error.
    For a name outside the tool table it issues none. *)
Theorem tool_calls_counted :
  forall (key n : string) (args : list (string * Json)) (up : Upstream),
    (forall op,
        toolName op = n ->
        converts op args = true ->
        length (snd (run (handleToolCall key n args) up)) = 1%nat)
    /\ (forall op,
          toolName op = n ->
          converts op args = false ->
          run (handleToolCall key n args) up
          = (Ok (JSON_stringify
                   (JObj [("success", JBool false);
                          ("error", JStr "Cannot convert object to primitive value")])),
             []))
    /\ (In n (map name listTools) <-> exists op, toolName op = n)
    /\ (~ In n (map name listTools) ->
        snd (run (handleToolCall key n args) up) = [])
    /\ (length (snd (run (handleToolCall key n args) up)) <= 1)%nat.
Proof.
  intros key n args up.
  assert (L : In n (map name listTools) <-> exists op, toolName op = n).
  { unfold listTools. rewrite listed_names, in_map_iff. split.
    - intros [op [E _]]. exists op. exact E.
    - intros [op E]. exists op. split; [exact E | apply cases_complete]. }
  split; [|split; [|split; [exact L|split]]].
  - intros op <- V. apply tool_call_always_issued, V.
  - intros op <- V. pose proof (tool_run key op args) as R. rewrite V in R. apply R.
  - intro N. destruct (tool_name_cases n) as [[op E]|C].
    + contradiction N. apply L. exists op. exact E.
    + unfold run. rewrite handleToolCall_unknown by exact C. reflexivity.
  - destruct (tool_name_cases n) as [[op <-]|C].
    + pose proof (tool_run key op args) as R. destruct (converts op args).
      * destruct R as [e [m [b [_ R]]]]. rewrite R. simpl. lia.
      * rewrite R. simpl. lia.
    + unfold run. rewrite handleToolCall_unknown by exact C. simpl. lia.
Qed.

(** The theorem at a profile tool given an identifier that has no text. *)
Lemma tool_calls_counted_witness :
  run (handleToolCall "k" "instagram_get_profile" [("uniqueId", noText)]) quotaExceeded
  = (Ok (JSON_stringify
           (JObj [("success", JBool false);
                  ("error", JStr "Cannot convert object to primitive value")])),
     []).
Proof.
  apply (proj1 (proj2 (@tool_calls_counted "k" "instagram_get_profile"
                         [("uniqueId", noText)] quotaExceeded)) instagram_get_profile);
    reflexivity.
Defined.

End ToolProperties.

(* ================================================================== *)
(** ** Further properties of the request bodies *)
(* ================================================================== *)

Module BodyProperties.
Import Js Net Uri Client Http Terms MoreTerms RouteFacts HttpFacts EncodingFacts
       ToolFacts ReplyFacts ExpressProperties.

Lemma lookup_in_keys (k : string) (l : list (string * Json)) :
  lookup k l <> None -> In k (map fst l).
Proof.
  induction l as [|[k' v] l IH]; simpl; [intro H; contradiction H; reflexivity|].
  destruct (String.eqb_spec k k') as [->|N]; [intros _; left; reflexivity|].
  intro H. right. apply IH, H.
Qed.

Lemma tool_searchBody_forwarded (args : list (string * Json)) :
  objectOf (Mcp.searchBody args) = toolForwarded args.
Proof.
  unfold Mcp.searchBody, toolForwarded, truthyOr, orElse.
  destruct (lookup "filters" args), (lookup "desc" args),
    (lookup "pageSize" args) as [p|], (lookup "offset" args) as [o|],
    (lookup "sortBy" args) as [s|];
    try destruct (truthy (Some p)); try destruct (truthy (Some o));
    try destruct (truthy (Some s)); reflexivity.
Qed.

Lemma tool_nlsBody_question (args : list (string * Json)) :
  objectOf (Mcp.nlsBody args) = toolQuestion args.
Proof.
  unfold Mcp.nlsBody, toolQuestion, truthyOr, orElse.
  destruct (lookup "query" args), (lookup "pageSize" args) as [p|],
    (lookup "offset" args) as [o|];
    try destruct (truthy (Some p)); try destruct (truthy (Some o)); reflexivity.
Qed.

Lemma tool_call_log key endpoint method body up :
  snd (match Client.makeApiRequest key endpoint method body up [] with
       | (Ok result, l) => (Ok (JSON_stringify_pretty result), l)
       | (Throw e, l) => (Ok (JSON_stringify (Mcp.failure (errorText e))), l)
       end)
  = [requestOptions key endpoint method body].
Proof.
  rewrite client_reply. destruct (clientResult _ _); reflexivity.
Qed.

(** X12. The body a search tool forwards takes [pageSize] and [offset] as
    given when truthy and as 20 and 0 otherwise (a page size of zero
    becomes 20), [sortBy] when truthy, [filters] and [desc] exactly when
    present: no default is applied to [desc], and a call without [filters]
    still goes upstream, without that field.  Nothing else is forwarded. *)
Theorem tool_search_body_defaults :
  forall (args : list (string * Json)),
    let out := objectOf (Mcp.searchBody args) in
    lookup "filters" out = lookup "filters" args
    /\ lookup "pageSize" out = Some (truthyOr (lookup "pageSize" args) (JNum 20))
    /\ lookup "offset" out = Some (truthyOr (lookup "offset" args) (JNum 0))
    /\ lookup "sortBy" out
       = (if truthy (lookup "sortBy" args) then lookup "sortBy" args else None)
    /\ lookup "desc" out = lookup "desc" args
    /\ (forall k, lookup k out <> None -> In k searchFields)
    /\ (forall key op up,
          In op searches ->
          exists path,
            snd (run (Mcp.handleToolCall key (Mcp.toolName op) args) up)
            = [requestOptions key path POST (Some (JObj out))]).
Proof.
  intros args out. unfold out. rewrite tool_searchBody_forwarded.
  split; [|split; [|split; [|split; [|split; [|split]]]]].
  1-5: unfold toolForwarded;
    destruct (lookup "filters" args), (lookup "desc" args),
      (lookup "sortBy" args) as [s|]; try destruct (truthy (Some s)); reflexivity.
  - intros k H. apply lookup_in_keys in H. unfold toolForwarded, searchFields in *.
    destruct (lookup "filters" args), (lookup "desc" args),
      (lookup "sortBy" args) as [s|]; try destruct (truthy (Some s));
      simpl in H; simpl; tauto.
  - intros key op up I. unfold run. rewrite handleToolCall_known.
    destruct I as [<-|[<-|[<-|[]]]]; cbn beta iota zeta delta [Mcp.toolCase];
      rewrite tool_searchBody_forwarded, tool_call_log; eexists; reflexivity.
Qed.

(** The theorem at a search tool given a page size of zero. *)
Lemma tool_search_body_defaults_witness :
  exists path,
    snd (run (Mcp.handleToolCall "k" (Mcp.toolName tiktok_search)
                [("filters", JArr []); ("pageSize", JNum 0)]) quotaExceeded)
    = [requestOptions "k" path POST
         (Some (JObj (objectOf (Mcp.searchBody [("filters", JArr []);
                                                ("pageSize", JNum 0)]))))].
Proof.
  destruct (tool_search_body_defaults [("filters", JArr []); ("pageSize", JNum 0)])
    as [_ [_ [_ [_ [_ [_ H]]]]]].
  apply H. right. right. left. reflexivity.
Defined.

(** X13. A natural-language search forwards a body of the query, the page
    size and the offset and nothing else.  The Express shells require a
    truthy query and default the other two when absent; the tool shell
    defaults them when falsy and forwards whatever query it got, leaving it
    out when absent. *)
Theorem question_body_three_fields :
  forall (key : string) (op : Operation) (up : Upstream),
    In op naturalLanguageSearches ->
    (forall req q,
        lookup "query" (body req) = Some q -> truthy (Some q) = true ->
        exists path,
          snd (run (V1.handler key op req) up)
          = [requestOptions key path POST (Some (JObj (question (body req) q)))])
    /\ (forall req q,
          nonEmpty key = true ->
          lookup "query" (body req) = Some q -> truthy (Some q) = true ->
          exists path,
            snd (run (V2.handler (Some key) op req) up)
            = [requestOptions key path POST (Some (JObj (question (body req) q)))])
    /\ (forall args,
          exists path,
            snd (run (Mcp.handleToolCall key (Mcp.toolName op) args) up)
            = [requestOptions key path POST (Some (JObj (toolQuestion args)))]).
Proof.
  intros key op up I. split; [|split].
  - intros req q L T. unfold run.
    destruct I as [<-|[<-|[<-|[]]]]; as_plan; unfold nlsPlan; rewrite L, T;
      rewrite v1_call_log; unfold question;
      destruct (lookup "pageSize" (body req)), (lookup "offset" (body req));
      eexists; reflexivity.
  - intros req q K L T. unfold run.
    destruct I as [<-|[<-|[<-|[]]]]; as_plan; unfold nlsPlan; rewrite L, T;
      rewrite v2_call_log by exact K; unfold question;
      destruct (lookup "pageSize" (body req)), (lookup "offset" (body req));
      eexists; reflexivity.
  - intro args. unfold run. rewrite handleToolCall_known.
    destruct I as [<-|[<-|[<-|[]]]]; cbn beta iota zeta delta [Mcp.toolCase];
      rewrite tool_nlsBody_question, tool_call_log; eexists; reflexivity.
Qed.

(** The theorem at a question with a page size of zero. *)
Lemma question_body_three_fields_witness :
  exists path,
    snd (run (V1.handler "k" youtube_natural_language_search
                {| query := []; body := [("query", JStr "chess"); ("pageSize", JNum 0)] |})
             quotaExceeded)
    = [requestOptions "k" path POST
         (Some (JObj [("query", JStr "chess"); ("pageSize", JNum 0);
                      ("offset", JNum 0)]))].
Proof.
  apply (proj1 (@question_body_three_fields "k" youtube_natural_language_search
                  quotaExceeded (or_intror (or_introl eq_refl)))
           {| query := []; body := [("query", JStr "chess"); ("pageSize", JNum 0)] |}
           (JStr "chess")); reflexivity.
Defined.

(** X14. A search route of the Express shells reads five fields of the
    request body and nothing else: two requests whose bodies agree on
    them get the same upstream call and the same answer, and no other
    field of the body is forwarded. *)
Theorem search_reads_five_fields :
  forall (key : string) (env : option string) (op : Operation) (req req' : Request)
         (up : Upstream),
    In op searches ->
    agreeOn searchFields (body req) (body req') ->
    run (V1.handler key op req) up = run (V1.handler key op req') up
    /\ run (V2.handler env op req) up = run (V2.handler env op req') up
    /\ (forall k, lookup k (objectOf (searchBody (body req))) <> None -> In k searchFields).
Proof.
  intros key env op req req' up I A.
  assert (P : forall path, searchPlan path req = searchPlan path req').
  { intro path. unfold searchPlan, searchBody.
    repeat match goal with
           | |- context [lookup ?k (body req)] =>
               rewrite (A k) by (unfold searchFields; simpl; tauto)
           end.
    reflexivity. }
  split; [|split].
  - unfold run. destruct I as [<-|[<-|[<-|[]]]];
      cbn beta iota zeta delta [V1.handler]; rewrite !search_exec, P; reflexivity.
  - unfold run. destruct I as [<-|[<-|[<-|[]]]];
      cbn beta iota zeta delta [V2.handler]; rewrite !search_exec, P; reflexivity.
  - intros k H. rewrite SearchFacts.searchBody_forwarded in H.
    apply lookup_in_keys in H. unfold forwarded, searchFields in *.
    destruct (lookup "filters" (body req)), (lookup "sortBy" (body req)) as [s|];
      try destruct (truthy (Some s)); simpl in H; simpl; tauto.
Qed.

(** The theorem at two searches differing in an unread field. *)
Lemma search_reads_five_fields_witness :
  run (V1.handler "k" instagram_search
         {| query := []; body := [("filters", JArr []); ("limit", JNum 5)] |}) quotaExceeded
  = run (V1.handler "k" instagram_search
           {| query := []; body := [("filters", JArr [])] |}) quotaExceeded.
Proof.
  apply (@search_reads_five_fields "k" None instagram_search
           {| query := []; body := [("filters", JArr []); ("limit", JNum 5)] |}
           {| query := []; body := [("filters", JArr [])] |} quotaExceeded).
  - left. reflexivity.
  - intros k I. unfold searchFields in I. simpl in I.
    destruct I as [<-|[<-|[<-|[<-|[<-|[]]]]]]; reflexivity.
Defined.

End BodyProperties.

(* ================================================================== *)
(** ** Further properties of identifiers, the classifier and the call
       handler *)
(* ================================================================== *)

Module IdentifierProperties.
Import Js Net Uri Client Http Terms MoreTerms RouteFacts HttpFacts SanitizerFacts
       EncodingFacts ToolFacts ReplyFacts.

Lemma unreserved_not_percent (c : ascii) :
  uriUnreserved c = true -> Ascii.eqb c "%" = false.
Proof.
  destruct c as [[|] [|] [|] [|] [|] [|] [|] [|]]; vm_compute;
    intro H; try discriminate H; reflexivity.
Qed.

Lemma unreserved_not_at (c : ascii) :
  uriUnreserved c = true -> Ascii.eqb c "@" = false.
Proof.
  destruct c as [[|] [|] [|] [|] [|] [|] [|] [|]]; vm_compute;
    intro H; try discriminate H; reflexivity.
Qed.

Lemma percent_digits (c : ascii) :
  exists h l a b,
    percent c = String "%" (String h (String l ""))
    /\ hexValue h = Some a /\ hexValue l = Some b
    /\ ascii_of_nat (16 * a + b) = c.
Proof.
  destruct c as [[|] [|] [|] [|] [|] [|] [|] [|]];
    do 4 eexists; (split; [vm_compute; reflexivity|]);
    (split; [vm_compute; reflexivity|]); (split; [vm_compute; reflexivity|]);
    vm_compute; reflexivity.
Qed.

Lemma percentDecode_percent (c : ascii) (rest r : string) :
  percentDecode rest = Some r ->
  percentDecode (percent c ++ rest) = Some (String c r).
Proof.
  intro H. destruct (percent_digits c) as [h [l [a [b [P [Hh [Hl E]]]]]]].
  rewrite P.
  change (String "%" (String h (String l "")) ++ rest)
    with (String "%" (String h (String l rest))).
  cbn [percentDecode]. change (Ascii.eqb "%" "%") with true. cbv iota.
  rewrite Hh, Hl, H, E. reflexivity.
Qed.

Lemma percentDecode_encode (s : string) :
  percentDecode (encodeURIComponent s) = Some s.
Proof.
  induction s as [|c s IH]; [reflexivity|].
  cbn [encodeURIComponent]. destruct (uriUnreserved c) eqn:U.
  - change (String c "" ++ encodeURIComponent s) with (String c (encodeURIComponent s)).
    cbn [percentDecode]. rewrite (unreserved_not_percent c U), IH. reflexivity.
  - apply percentDecode_percent, IH.
Qed.

(** X16. A name made only of letters, digits and the marks the encoder
    leaves alone is sent as it is, and the same name written with one
    leading at sign is sent as the bare name. *)
Theorem sanitizeId_plain_name :
  forall (s : string),
    allChars uriUnreserved s = true ->
    V2.sanitizeId s = s /\ V2.sanitizeId (String "@" s) = s.
Proof.
  intros s U.
  assert (E : encodeURIComponent s = s) by (apply encodeURIComponent_unreserved, U).
  split; [|exact E].
  unfold V2.sanitizeId, V2.stripLeadingAt. destruct s as [|c s]; [reflexivity|].
  simpl in U. apply andb_true_iff in U. destruct U as [Uc _].
  rewrite (unreserved_not_at c Uc). exact E.
Qed.

(** The theorem at a name with a dot and an underscore. *)
Lemma sanitizeId_plain_name_witness :
  V2.sanitizeId "nasa.hq_1" = "nasa.hq_1"
  /\ V2.sanitizeId (String "@" "nasa.hq_1") = "nasa.hq_1".
Proof. apply sanitizeId_plain_name. reflexivity. Defined.

(** X17. Nothing of an identifier is lost by [sanitizeId] but one leading
    at sign: reading the percent escapes of the result back gives the
    identifier without that sign, so two identifiers are sent as the same
    text exactly when they are equal up to one leading at sign. *)
Theorem sanitizeId_loses_only_the_at_sign :
  (forall id, percentDecode (V2.sanitizeId id) = Some (V2.stripLeadingAt id))
  /\ (forall a b,
        V2.sanitizeId a = V2.sanitizeId b <-> V2.stripLeadingAt a = V2.stripLeadingAt b)
  /\ (forall a b,
        encodeURIComponent a = encodeURIComponent b -> a = b).
Proof.
  split; [intro id; apply percentDecode_encode|].
  assert (J : forall a b, encodeURIComponent a = encodeURIComponent b -> a = b).
  { intros a b E.
    pose proof (percentDecode_encode a) as Da. rewrite E, percentDecode_encode in Da.
    injection Da as Da. symmetry. exact Da. }
  split; [|exact J].
  intros a b. unfold V2.sanitizeId. split; [apply J | intros ->; reflexivity].
Qed.

(** The theorem at two spellings of one identifier. *)
Lemma sanitizeId_loses_only_the_at_sign_witness :
  V2.sanitizeId "@a b" = V2.sanitizeId "a b".
Proof.
  apply (proj2 (proj1 (proj2 sanitizeId_loses_only_the_at_sign) "@a b" "a b")).
  reflexivity.
Defined.

(** X15. The first Express shell and the tool shell write an identifier
    into the upstream URL as its text, with no encoding and no at sign
    removed: a string as it is, a number as JavaScript prints it.  The tool
    shell, which tests nothing, writes the text [undefined] for an absent
    identifier.  An identifier that has no text makes the conversion throw:
    the first shell answers 500, the tool returns the text of the type
    error, and nothing is called. *)
Theorem identifiers_written_as_given :
  forall (op : Operation) (p : string),
    Mcp.required op = [p] ->
    In p ["uniqueId"; "channelId"; "contentId"] ->
    exists path,
      (forall key req up v text,
          lookup p (query req) = Some v ->
          truthy (Some v) = true ->
          toString (Some v) = Some text ->
          snd (run (V1.handler key op req) up)
          = [requestOptions key (path ++ "?" ++ p ++ "=" ++ text) GET None])
      /\ (forall key args up text,
            toString (lookup p args) = Some text ->
            snd (run (Mcp.handleToolCall key (Mcp.toolName op) args) up)
            = [requestOptions key (path ++ "?" ++ p ++ "=" ++ text) GET None])
      /\ (forall key args up,
            lookup p args = None ->
            snd (run (Mcp.handleToolCall key (Mcp.toolName op) args) up)
            = [requestOptions key (path ++ "?" ++ p ++ "=" ++ "undefined") GET None])
      /\ (forall key req up v,
            lookup p (query req) = Some v ->
            truthy (Some v) = true ->
            toString (Some v) = None ->
            run (V1.handler key op req) up
            = (Ok (errorAnswer 500 "Cannot convert object to primitive value"), []))
      /\ (forall key args up,
            toString (lookup p args) = None ->
            run (Mcp.handleToolCall key (Mcp.toolName op) args) up
            = (Ok (JSON_stringify
                     (JObj [("success", JBool false);
                            ("error", JStr "Cannot convert object to primitive value")])),
               []))
      /\ (forall s, toString (Some (JStr s)) = Some s)
      /\ (forall t, toString (Some (JNumber t)) = Some t).
Proof.
  intros op p R I.
  destruct op; simpl in R; try discriminate R; injection R as <-;
    try (simpl in I; repeat (destruct I as [I|I]; try discriminate I); contradiction);
    eexists;
    (split;
     [ intros key req up v text L T X; unfold run; as_plan;
       unfold getByIdPlan, V1.interpolated, stringOf; rewrite L, T, X;
       rewrite v1_call_log; reflexivity |]);
    (split;
     [ intros key args up text X; unfold run; rewrite handleToolCall_known;
       cbv beta iota zeta delta [Mcp.toolCase]; unfold bind, lift, stringOf;
       rewrite X, client_reply; destruct (clientResult _ _); reflexivity |]);
    (split;
     [ intros key args up X; unfold run; rewrite handleToolCall_known;
       cbv beta iota zeta delta [Mcp.toolCase]; unfold bind, lift, stringOf;
       rewrite X; cbv beta iota delta [toString];
       rewrite client_reply; destruct (clientResult _ _); reflexivity |]);
    (split;
     [ intros key req up v L T X; unfold run; as_plan;
       unfold getByIdPlan, V1.interpolated, stringOf; rewrite L, T, X;
       reflexivity |]);
    (split;
     [ intros key args up X; unfold run; rewrite handleToolCall_known;
       cbv beta iota zeta delta [Mcp.toolCase]; unfold bind, lift, stringOf;
       rewrite X; reflexivity |]);
    split; reflexivity.
Qed.

(** The theorem at a tool call without arguments. *)
Lemma identifiers_written_as_given_witness :
  exists path,
    snd (run (Mcp.handleToolCall "k" (Mcp.toolName youtube_get_contact) []) quotaExceeded)
    = [requestOptions "k" (path ++ "?" ++ "channelId" ++ "=" ++ "undefined") GET None].
Proof.
  destruct (@identifiers_written_as_given youtube_get_contact "channelId" eq_refl
              (or_intror (or_introl eq_refl))) as [path [_ [_ [H _]]]].
  exists path. exact (H "k" [] quotaExceeded eq_refl).
Defined.

(** X18. A decoded body that is not an object has none of the fields the
    classifier reads.  A number, string, boolean or array is judged on the
    status alone: returned as it is under a 2xx status, a failure with the
    generic message otherwise.  A [null] body is a failure under every
    status, with the message of the type error raised by reading it. *)
Theorem classifier_on_other_bodies :
  forall (mkError : string -> Z -> Exn) (status : Z) (data : Json),
    (forall fields, data <> JObj fields) ->
    (data = JNull ->
     classify mkError status data
     = Throw (JsError ("Cannot read properties of null (reading '"
                       ++ (if ok status then "success" else "errorDescription") ++ "')")))
    /\ (data <> JNull ->
        classify mkError status data
        = if ok status then Ok data
          else Throw (mkError ("API Error: " ++ string_of_Z status) status)).
Proof.
  intros mkError status data O. split.
  - intros ->. unfold classify, responseFailed. destruct (ok status); reflexivity.
  - intro N. unfold classify, responseFailed.
    destruct data as [|b|n|s|items|fields];
      try (contradiction N; reflexivity);
      try (contradiction (O fields); reflexivity);
      destruct (ok status); reflexivity.
Qed.

(** The theorem at an array answered with status 200. *)
Lemma classifier_on_other_bodies_witness :
  classify ApiError 200 (JArr [JNum 1]) = Ok (JArr [JNum 1]).
Proof.
  refine (proj2 (@classifier_on_other_bodies ApiError 200 (JArr [JNum 1]) _) _);
    intros; discriminate.
Defined.

(** X19. The call handler of the server never fails: for every name and
    every argument value it returns exactly one content block of type
    [text], holding the text of [handleToolCall] run on the properties of
    the arguments; absent arguments count as the empty record. *)
Theorem call_tool_one_text_block :
  forall (key n : string) (args : Value) (up : Upstream),
    (exists t calls,
        run (McpServer.callTool key n args) up
        = (Ok [{| McpServer.type := "text"; McpServer.text := t |}], calls)
        /\ run (Mcp.handleToolCall key n (McpServer.argumentRecord args)) up = (Ok t, calls)
        /\ (length calls <= 1)%nat)
    /\ McpServer.argumentRecord None = []
    /\ (forall fields, McpServer.argumentRecord (Some (JObj fields)) = fields).
Proof.
  intros key n args up. split; [|split; reflexivity].
  unfold run, McpServer.callTool, bind.
  destruct (ToolProperties.tool_name_cases n) as [[op <-]|N].
  - pose proof (tool_run key op (McpServer.argumentRecord args)) as R.
    destruct (converts op (McpServer.argumentRecord args)).
    + destruct R as [e [m [b [_ E]]]].
      unfold run in E. rewrite E. do 2 eexists. repeat split. simpl. lia.
    + unfold run in R. rewrite R. do 2 eexists. repeat split. simpl. lia.
  - rewrite handleToolCall_unknown by exact N. do 2 eexists. repeat split. simpl. lia.
Qed.

End IdentifierProperties.
